(** * tastypie_swagger.views: a shallow embedding and its properties

    The module [tastypie_swagger/views.py] holds a JSON encoder for lazy
    strings, a mixin that resolves the tastypie [Api] instance from a dotted
    path, a mixin that adds the Swagger version keys, a JSON rendering view
    and the three views built from them.  Python values are embedded as the
    inductive [pyval]; dictionaries are finite maps keyed by strings, as
    Django's keyword contexts and Swagger's descriptors are; exceptions are
    the [Raise] outcomes of a state-and-error monad over the [world] of view
    objects. *)

From Stdlib Require Import ZArith String Ascii DecimalString.
From stdpp Require Import gmap strings list fin_maps sorting.

Set Warnings "-register-all,-clear-no-such-hyp".
Open Scope string_scope.

(** ** Python values *)

(** [PLazy s] is a [django.utils.functional.Promise] proxy whose forced text
    is [s]; [PObj cls attrs] is an instance of a plain class with its
    attribute dictionary (no special methods).  Floats and tuples, which
    the views never build, are left out. *)
Inductive pyval : Type :=
| PNone
| PBool (b : bool)
| PInt (z : Z)
| PStr (s : string)
| PLazy (s : string)
| PList (l : list pyval)
| PDict (d : gmap string pyval)
| PObj (cls : string) (attrs : gmap string pyval).

(** Python's truth value testing ([not x], [if x]). *)
Definition py_truthy (v : pyval) : bool :=
  match v with
  | PNone => false
  | PBool b => b
  | PInt z => negb (z =? 0)%Z
  | PStr s | PLazy s => negb (String.eqb s EmptyString)
  | PList l => negb (Nat.eqb (length l) 0)
  | PDict d => negb (Nat.eqb (size d) 0)
  | PObj _ _ => true
  end.

(** ** Exceptions and outcomes *)

Inductive exn : Type :=
| ImproperlyConfigured (msg : string)
| Http404
| NoReverseMatch
| ValueError
| AttributeError
| TypeError.

Inductive result (A : Type) : Type :=
| Ok (a : A)
| Raise (e : exn).
Arguments Ok {A} a.
Arguments Raise {A} e.

(** Django's handler turns [Http404] into a 404 page and every other
    uncaught exception into a server error. *)
Definition http_status_of_exn (e : exn) : Z :=
  match e with
  | Http404 => 404
  | _ => 500
  end.

(** ** The world: modules and view objects *)

Definition loc := nat.

(** A view object: [self.kwargs] (string-valued URL keyword arguments),
    [self.request.path] and the instance attribute [_tastypie_api], which is
    [None] while the instance dictionary does not hold it. *)
Record view : Type := View {
  kwargs : gmap string string;
  request_path : string;
  inst_tastypie_api : option pyval
}.

(** [sys_modules] is [sys.modules], each module being its namespace;
    [class_tastypie_api] is the class attribute
    [TastypieApiMixin._tastypie_api]; [heap] holds the view objects. *)
Record world : Type := World {
  sys_modules : gmap string (gmap string pyval);
  class_tastypie_api : pyval;
  heap : gmap loc view
}.

Definition M (A : Type) : Type := world → result A * world.

Definition ret {A} (a : A) : M A := λ w, (Ok a, w).
Definition raise {A} (e : exn) : M A := λ w, (Raise e, w).
Definition bind {A B} (m : M A) (f : A → M B) : M B :=
  λ w, match m w with
       | (Ok a, w') => f a w'
       | (Raise e, w') => (Raise e, w')
       end.
Definition lift {A} (r : result A) : M A := λ w, (r, w).

Notation "x ←← m ;; k" := (bind m (λ x, k))
  (at level 100, m at next level, right associativity).
Notation "m ;;; k" := (bind m (λ _, k))
  (at level 100, right associativity).

(** Reading [self]: a reference always points to a live object, so the
    [AttributeError] of the last case never arises from Python code. *)
Definition get_view (self : loc) : M view :=
  λ w, match heap w !! self with
       | Some o => (Ok o, w)
       | None => (Raise AttributeError, w)
       end.

(** [self._tastypie_api]: the instance dictionary first, then the class. *)
Definition read_tastypie_api (self : loc) : M pyval :=
  o ←← get_view self;;
  λ w, (Ok (default (class_tastypie_api w) (inst_tastypie_api o)), w).

(** [self._tastypie_api = v] writes the instance dictionary of [self]. *)
Definition write_tastypie_api (self : loc) (v : pyval) : M unit :=
  o ←← get_view self;;
  λ w, (Ok tt,
        World (sys_modules w) (class_tastypie_api w)
              (<[self := View (kwargs o) (request_path o) (Some v)]> (heap w))).

(** ** TastypieApiMixin *)

(** [s.rsplit('.', 1)]: split at the last dot, or the whole string alone. *)
Fixpoint rsplit_last_dot (s : string) : option (string * string) :=
  match s with
  | EmptyString => None
  | String c s' =>
      match rsplit_last_dot s' with
      | Some (p, a) => Some (String c p, a)
      | None => if Ascii.eqb c "." then Some (EmptyString, s') else None
      end
  end.

Definition rsplit_dot_1 (s : string) : list string :=
  match rsplit_last_dot s with
  | Some (p, a) => [p; a]
  | None => [s]
  end.

Definition msg_must_be_defined : string :=
  "tastypie_api_module must be defined"
  ++ "as an extra parameters in urls.py with its value being"
  ++ "a path to a tastypie.api.Api instance.".

(** The property [tastypie_api] (lines 30-52). *)
Definition tastypie_api (self : loc) : M pyval :=
  cached ←← read_tastypie_api self;;
  (if negb (py_truthy cached) then
     o ←← get_view self;;
     match kwargs o !! "tastypie_api_module" with
     | None => raise (ImproperlyConfigured msg_must_be_defined)
     | Some tastypie_api_module =>
         if String.eqb tastypie_api_module EmptyString then
           raise (ImproperlyConfigured msg_must_be_defined)
         else
           match rsplit_dot_1 tastypie_api_module with
           | [path; attr] =>
               λ w,
                 match sys_modules w !! path with
                 | None =>
                     (Raise (ImproperlyConfigured
                               (path ++ " is not a valid python path")), w)
                 | Some module =>
                     let found := default PNone (module !! attr) in
                     if negb (py_truthy found) then
                       (Raise (ImproperlyConfigured
                                 (tastypie_api_module
                                  ++ " is not a valid tastypie.api.Api instance")), w)
                     else write_tastypie_api self found w
                 end
           | _ => raise ValueError
           end
     end
   else ret tt);;;
  read_tastypie_api self.

(** ** JSON documents and [json.dumps] *)

Inductive json : Type :=
| JNull
| JBool (b : bool)
| JNum (z : Z)
| JString (s : string)
| JArray (l : list json)
| JObject (members : list (string * json)).

(** [LazyEncoder.default] (lines 16-19): [force_text] gives the text of a
    [Promise]; anything else goes to [JSONEncoder.default], which raises
    [TypeError]. *)
Definition LazyEncoder_default (obj : pyval) : result string :=
  match obj with
  | PLazy s => Ok s
  | _ => Raise TypeError
  end.

(** Encode the items of a sequence in order; the first failure wins. *)
Definition collect {A B} (f : A → result B) (l : list A) : result (list B) :=
  foldr (λ x acc,
           match f x with
           | Raise e => Raise e
           | Ok j => match acc with
                     | Raise e => Raise e
                     | Ok js => Ok (j :: js)
                     end
           end) (Ok []) l.

(** The walk of [JSONEncoder.iterencode]: values of the JSON types are
    encoded directly, any other object through the [default] hook. *)
Fixpoint iterencode (o : pyval) : result json :=
  match o with
  | PNone => Ok JNull
  | PBool b => Ok (JBool b)
  | PInt z => Ok (JNum z)
  | PStr s => Ok (JString s)
  | PList l =>
      match collect iterencode l with
      | Ok js => Ok (JArray js)
      | Raise e => Raise e
      end
  | PDict d =>
      match
        map_fold (λ k x acc,
                    match iterencode x with
                    | Raise e => Raise e
                    | Ok j => match acc with
                              | Raise e => Raise e
                              | Ok ms => Ok ((k, j) :: ms)
                              end
                    end) (Ok []) d
      with
      | Ok ms => Ok (JObject ms)
      | Raise e => Raise e
      end
  | PLazy _ | PObj _ _ =>
      match LazyEncoder_default o with
      | Ok s => Ok (JString s)
      | Raise e => Raise e
      end
  end.

Definition dquote : ascii := ascii_of_nat 34.
Definition backslash : ascii := ascii_of_nat 92.

Definition hex_digit (n : N) : ascii :=
  if (n <? 10)%N then ascii_of_N (48 + n) else ascii_of_N (87 + n).

(** One character of [encode_basestring_ascii]; characters are code points
    below 256. *)
Definition escape_char (c : ascii) : string :=
  let n := N_of_ascii c in
  let esc (x : string) := String backslash x in
  if Ascii.eqb c dquote then esc (String dquote EmptyString)
  else if Ascii.eqb c backslash then esc (String backslash EmptyString)
  else if (n =? 8)%N then esc "b"
  else if (n =? 12)%N then esc "f"
  else if (n =? 10)%N then esc "n"
  else if (n =? 13)%N then esc "r"
  else if (n =? 9)%N then esc "t"
  else if ((32 <=? n) && (n <=? 126))%N then String c EmptyString
  else esc ("u00" ++ String (hex_digit (n / 16)) (String (hex_digit (n mod 16)) EmptyString)).

Fixpoint escape_chars (s : string) : string :=
  match s with
  | EmptyString => EmptyString
  | String c s' => escape_char c ++ escape_chars s'
  end.

Definition encode_basestring_ascii (s : string) : string :=
  String dquote (escape_chars s ++ String dquote EmptyString).

(** The text of a document with the default separators. *)
Fixpoint json_text (j : json) : string :=
  match j with
  | JNull => "null"
  | JBool true => "true"
  | JBool false => "false"
  | JNum z => NilZero.string_of_int (Z.to_int z)
  | JString s => encode_basestring_ascii s
  | JArray l => "[" ++ String.concat ", " (map json_text l) ++ "]"
  | JObject ms =>
      "{" ++ String.concat ", "
               (map (λ kv, encode_basestring_ascii (fst kv) ++ ": " ++ json_text (snd kv)) ms)
          ++ "}"
  end.

(** [json.dumps(o, cls=LazyEncoder)]. *)
Definition json_dumps (o : pyval) : result string :=
  match iterencode o with
  | Ok j => Ok (json_text j)
  | Raise e => Raise e
  end.

(** ** JSONView *)

Record HttpResponse : Type := mkHttpResponse {
  content : string;
  content_type : string;
  status_code : Z
}.

(** [if k in context: del context[k]]. *)
Definition del_if_in (k : string) (context : gmap string pyval) : gmap string pyval :=
  if bool_decide (is_Some (context !! k)) then delete k context else context.

(** The keys left for serialisation by [render_to_response] (lines 80-84). *)
Definition strip_internal_keys (context : gmap string pyval) : gmap string pyval :=
  let context := foldl (λ c k, del_if_in k c) context ["params"; "view"] in
  del_if_in "view" context.

(** [JSONView.render_to_response] (lines 76-89), as [TemplateView.get]
    calls it: with no extra response keyword arguments. *)
Definition render_to_response (context : gmap string pyval) : result HttpResponse :=
  match json_dumps (PDict (strip_internal_keys context)) with
  | Ok body => Ok (mkHttpResponse body "application/json" 200)
  | Raise e => Raise e
  end.

(** ** Helpers of the endpoint views *)

(** [o.name] for the attribute [name]; the built-in values carry none of the
    attributes read by the views. *)
Definition py_getattr (o : pyval) (name : string) : result pyval :=
  match o with
  | PObj _ attrs =>
      match attrs !! name with
      | Some v => Ok v
      | None => Raise AttributeError
      end
  | _ => Raise AttributeError
  end.

(** [c.keys()]. *)
Definition py_keys (c : pyval) : result (list string) :=
  match c with
  | PDict d => Ok (map fst (map_to_list d))
  | _ => Raise AttributeError
  end.

(** [c.get(x)] for [x] a string or [None]. *)
Definition py_get (c : pyval) (x : pyval) : result pyval :=
  match c with
  | PDict d =>
      match x with
      | PStr s => Ok (default PNone (d !! s))
      | _ => Ok PNone
      end
  | _ => Raise AttributeError
  end.

Fixpoint is_substring (s t : string) : bool :=
  String.prefix s t
  || match t with
     | EmptyString => false
     | String _ t' => is_substring s t'
     end.

(** [x == e] for [x] a string or [None]. *)
Definition py_eq_name (x e : pyval) : bool :=
  match x, e with
  | PStr s, (PStr t | PLazy t) => String.eqb s t
  | PNone, PNone => true
  | _, _ => false
  end.

(** [x in c] for [x] a string or [None]. *)
Definition py_contains (x c : pyval) : result bool :=
  match c with
  | PDict d =>
      match x with
      | PStr s => Ok (bool_decide (is_Some (d !! s)))
      | _ => Ok false
      end
  | PList l => Ok (existsb (py_eq_name x) l)
  | PStr t | PLazy t =>
      match x with
      | PStr s => Ok (is_substring s t)
      | _ => Raise TypeError
      end
  | _ => Raise TypeError
  end.

Definition string_le (s1 s2 : string) : Prop := String.leb s1 s2 = true.

Global Instance string_le_dec s1 s2 : Decision (string_le s1 s2).
Proof. unfold string_le. apply _. Defined.

(** [sorted(names)] on strings. *)
Definition sorted (names : list string) : list string := merge_sort string_le names.

Fixpoint lstrip (c : ascii) (s : string) : string :=
  match s with
  | EmptyString => EmptyString
  | String a s' => if Ascii.eqb a c then lstrip c s' else s
  end.

Fixpoint rstrip (c : ascii) (s : string) : string :=
  match s with
  | EmptyString => EmptyString
  | String a s' =>
      match rstrip c s' with
      | EmptyString => if Ascii.eqb a c then EmptyString else String a EmptyString
      | r => String a r
      end
  end.

(** [s.strip(c)] for a one-character argument. *)
Definition strip (c : ascii) (s : string) : string := rstrip c (lstrip c s).

(** [context.update(other)]. *)
Definition dict_update (context other : gmap string pyval) : gmap string pyval :=
  other ∪ context.

(** ** The views *)

Section Views.

(** What the views take from Django and from [tastypie_swagger.mapping]:
    [TemplateView.get_context_data], [resolve(path).namespace],
    [reverse], [request.build_absolute_uri], and the constructor and the
    two builders of [ResourceSwaggerMapping]. *)
Variable TemplateView_get_context_data : view → gmap string string → gmap string pyval.
Variable resolve_namespace : string → result string.
Variable reverse : string → result string.
Variable build_absolute_uri : string → string.
Variable mapping_obj : Type.
Variable ResourceSwaggerMapping : pyval → result mapping_obj.
Variable build_apis : mapping_obj → result pyval.
Variable build_models : mapping_obj → result pyval.

(** [SwaggerApiDataMixin.get_context_data] (lines 60-67). *)
Definition SwaggerApiDataMixin_get_context_data (self : loc)
    (kw : gmap string string) : M (gmap string pyval) :=
  o ←← get_view self;;
  let context := TemplateView_get_context_data o kw in
  ret (dict_update context
         (<["apiVersion" := PStr "0.1"]> (<["swaggerVersion" := PStr "1.1"]> ∅))).

(** [ResourcesView.get_context_data] (lines 113-123). *)
Definition ResourcesView_get_context_data (self : loc)
    (kw : gmap string string) : M (gmap string pyval) :=
  context ←← SwaggerApiDataMixin_get_context_data self kw;;
  api ←← tastypie_api self;;
  registry ←← lift (py_getattr api "_registry");;
  keys ←← lift (py_keys registry);;
  let apis := map (λ name, PDict {["path" := PStr ("/" ++ name)]}) (sorted keys) in
  o ←← get_view self;;
  namespace ←← lift (resolve_namespace (request_path o));;
  url ←← lift (reverse (namespace ++ ":schema"));;
  ret (dict_update context
         (<["basePath" := PStr (strip "/" (build_absolute_uri url))]>
            (<["apis" := PList apis]> ∅))).

(** [SchemaView.get_context_data] (lines 133-149). *)
Definition SchemaView_get_context_data (self : loc)
    (kw : gmap string string) : M (gmap string pyval) :=
  let resource_name := default PNone (PStr <$> kw !! "resource") in
  api ←← tastypie_api self;;
  registry ←← lift (py_getattr api "_registry");;
  found ←← lift (py_contains resource_name registry);;
  (if negb found then raise Http404 else ret tt);;;
  api ←← tastypie_api self;;
  registry ←← lift (py_getattr api "_registry");;
  resource ←← lift (py_get registry resource_name);;
  mapping ←← lift (ResourceSwaggerMapping resource);;
  context ←← SwaggerApiDataMixin_get_context_data self kw;;
  let basePath := PStr (strip "/" (build_absolute_uri "/")) in
  apis ←← lift (build_apis mapping);;
  models ←← lift (build_models mapping);;
  ret (dict_update context
         (<["basePath" := basePath]>
            (<["apis" := apis]> (<["models" := models]> ∅)))).

(** [TemplateView.get]: build the context from the URL keyword arguments,
    then render it. *)
Definition get (get_context_data : loc → gmap string string → M (gmap string pyval))
    (self : loc) : M HttpResponse :=
  o ←← get_view self;;
  context ←← get_context_data self (kwargs o);;
  lift (render_to_response context).

Definition ResourcesView_get : loc → M HttpResponse :=
  get ResourcesView_get_context_data.

Definition SchemaView_get : loc → M HttpResponse :=
  get SchemaView_get_context_data.

(** [SwaggerView.get_context_data] (lines 99-103). *)
Definition SwaggerView_get_context_data (self : loc)
    (kw : gmap string string) : M (gmap string pyval) :=
  o ←← get_view self;;
  let context := TemplateView_get_context_data o kw in
  namespace ←← lift (resolve_namespace (request_path o));;
  url ←← lift (reverse (namespace ++ ":resources"));;
  ret (<["discovery_url" := PStr (strip "/" (build_absolute_uri url))]> context).

End Views.

(** The status the client sees. *)
Definition http_status (r : result HttpResponse) : Z :=
  match r with
  | Ok resp => status_code resp
  | Raise e => http_status_of_exn e
  end.

(** ** Notions used in the statements and proofs *)

(** Whether [json.dumps] accepts a value: no plain object below it. *)
Fixpoint serializable (o : pyval) : bool :=
  match o with
  | PList l => forallb serializable l
  | PDict d => map_fold (λ _ x acc, serializable x && acc) true d
  | PObj _ _ => false
  | _ => true
  end.

(** Positions inside a value: list indices and dictionary keys. *)
Inductive step : Type :=
| Idx (i : nat)
| Key (k : string).

Fixpoint py_at (p : list step) (v : pyval) : option pyval :=
  match p with
  | [] => Some v
  | Idx i :: p' =>
      match v with
      | PList l => match l !! i with Some x => py_at p' x | None => None end
      | _ => None
      end
  | Key k :: p' =>
      match v with
      | PDict d => match d !! k with Some x => py_at p' x | None => None end
      | _ => None
      end
  end.

(** The member a JSON reader finds under [k]. *)
Fixpoint member (k : string) (ms : list (string * json)) : option json :=
  match ms with
  | [] => None
  | (k', j) :: ms' => if String.eqb k k' then Some j else member k ms'
  end.

Fixpoint json_at (p : list step) (j : json) : option json :=
  match p with
  | [] => Some j
  | Idx i :: p' =>
      match j with
      | JArray l => match l !! i with Some x => json_at p' x | None => None end
      | _ => None
      end
  | Key k :: p' =>
      match j with
      | JObject ms => match member k ms with Some x => json_at p' x | None => None end
      | _ => None
      end
  end.

(** The value with every lazy string below it forced. *)
Fixpoint force (o : pyval) : pyval :=
  match o with
  | PLazy s => PStr s
  | PList l => PList (map force l)
  | PDict d => PDict (force <$> d)
  | _ => o
  end.

(** One member of an object, as [iterencode] produces it. *)
Definition encode_item (kv : string * pyval) : result (string * json) :=
  match iterencode (snd kv) with
  | Ok j => Ok (fst kv, j)
  | Raise e => Raise e
  end.

(** The number of constructors below a value. *)
Fixpoint py_size (o : pyval) : nat :=
  match o with
  | PList l => S (foldr (λ x n, py_size x + n) 0 l)
  | PDict d => S (map_fold (λ _ x n, py_size x + n) 0 d)
  | _ => 1
  end.

(** The resolution of lines 35-48 as a function of [self.kwargs] and
    [sys.modules]; [tastypie_api_unfold] relates it to the accessor. *)
Definition resolve_path (modules : gmap string (gmap string pyval))
    (kw : gmap string string) : result pyval :=
  match kw !! "tastypie_api_module" with
  | None => Raise (ImproperlyConfigured msg_must_be_defined)
  | Some s =>
      if String.eqb s EmptyString then Raise (ImproperlyConfigured msg_must_be_defined)
      else
        match rsplit_dot_1 s with
        | [path; attr] =>
            match modules !! path with
            | None => Raise (ImproperlyConfigured (path ++ " is not a valid python path"))
            | Some module =>
                let found := default PNone (module !! attr) in
                if py_truthy found then Ok found
                else Raise (ImproperlyConfigured
                              (s ++ " is not a valid tastypie.api.Api instance"))
            end
        | _ => Raise ValueError
        end
  end.

(** The world after [self._tastypie_api = v]. *)
Definition with_cache (self : loc) (o : view) (v : pyval) (w : world) : world :=
  World (sys_modules w) (class_tastypie_api w)
        (<[self := View (kwargs o) (request_path o) (Some v)]> (heap w)).

(** Whether a string holds the character [c]. *)
Fixpoint has_char (c : ascii) (s : string) : bool :=
  match s with
  | EmptyString => false
  | String a s' => Ascii.eqb a c || has_char c s'
  end.

(** The document whose text [render_to_response] sends. *)
Definition response_document (context : gmap string pyval) : result json :=
  iterencode (PDict (strip_internal_keys context)).

Definition starts_with (c : ascii) (s : string) : bool :=
  match s with
  | EmptyString => false
  | String a _ => Ascii.eqb a c
  end.

Fixpoint ends_with (c : ascii) (s : string) : bool :=
  match s with
  | EmptyString => false
  | String a EmptyString => Ascii.eqb a c
  | String _ s' => ends_with c s'
  end.

(** The entry of the listing for one resource name, as a value and as a
    document. *)
Definition api_entry (name : string) : pyval :=
  PDict {["path" := PStr ("/" ++ name)]}.

Definition api_entry_json (name : string) : json :=
  JObject [("path", JString ("/" ++ name))].

(** Every registry held by a view object is truthy. *)
Definition cache_truthy (w : world) : Prop :=
  ∀ self o v,
    heap w !! self = Some o → inst_tastypie_api o = Some v → py_truthy v = true.

(** The world with [sys.modules] replaced. *)
Definition with_modules (modules : gmap string (gmap string pyval)) (w : world) : world :=
  World modules (class_tastypie_api w) (heap w).

(** ** A sample site *)

Definition demo_registry : gmap string pyval :=
  <["book" := PObj "BookResource" ∅]>
    (<["author" := PObj "AuthorResource" ∅]> (<["Zed" := PObj "ZedResource" ∅]> ∅)).

Definition demo_api : pyval := PObj "Api" (<["_registry" := PDict demo_registry]> ∅).

Definition demo_modules : gmap string (gmap string pyval) :=
  <["myapp.urls" := <["api" := demo_api]> (<["version" := PInt 3]> (<["names" := PList []]> ∅))]> ∅.

Definition demo_view (module_path resource : string) : view :=
  View (<["tastypie_api_module" := module_path]> (<["resource" := resource]> ∅))
       "/api/doc/resources/" None.

Definition demo_world (module_path resource : string) : world :=
  World demo_modules PNone (<[0 := demo_view module_path resource]> ∅).

Definition demo_context (o : view) (kw : gmap string string) : gmap string pyval :=
  <["view" := PObj "ResourcesView" ∅]>
    (<["params" := PDict (PStr <$> kw)]>
       (<["title" := PList [PLazy "Docs"]]> ∅)).

Definition demo_kwargs : gmap string string :=
  kwargs (demo_view "myapp.urls.api" "book").

Definition demo_base : gmap string pyval :=
  demo_context (demo_view "myapp.urls.api" "book") demo_kwargs.

Definition demo_resolve_namespace (path : string) : result string := Ok "tastypie_swagger".

Definition demo_reverse (name : string) : result string :=
  if String.eqb name "tastypie_swagger:schema" then Ok "/api/doc/schema/"
  else Raise NoReverseMatch.

Definition demo_build_absolute_uri (location : string) : string :=
  "http://testserver" ++ location.

Definition demo_build_apis (resource : pyval) : result pyval :=
  Ok (PList [PDict (<["path" := PStr "/book/"]> ∅)]).

Definition demo_build_models (resource : pyval) : result pyval :=
  Ok (PDict (<["Book" := PDict ∅]> ∅)).

Definition demo_listing : result HttpResponse :=
  fst (ResourcesView_get demo_context demo_resolve_namespace demo_reverse
         demo_build_absolute_uri 0 (demo_world "myapp.urls.api" "book")).

Definition demo_declaration (resource : string) : result HttpResponse :=
  fst (SchemaView_get demo_context demo_build_absolute_uri pyval
         Ok demo_build_apis demo_build_models
         0 (demo_world "myapp.urls.api" resource)).

Definition demo_reverse_any (name : string) : result string :=
  if String.eqb name "tastypie_swagger:schema" then Ok "/api/doc/schema/"
  else if String.eqb name "tastypie_swagger:resources" then Ok "/api/doc/resources/"
  else Raise NoReverseMatch.

Definition demo_declaration_with (module_path resource : string) : result HttpResponse :=
  fst (SchemaView_get demo_context demo_build_absolute_uri pyval
         Ok demo_build_apis demo_build_models
         0 (demo_world module_path resource)).

Definition demo_listing_response : HttpResponse :=
  Eval vm_compute in
    match demo_listing with
    | Ok resp => resp
    | Raise _ => mkHttpResponse EmptyString EmptyString 0
    end.
(** * Properties *)

(** ** The sample site, evaluated *)

Example rsplit_dotted : rsplit_dot_1 "myapp.urls.api" = ["myapp.urls"; "api"].
Proof. reflexivity. Qed.

Example rsplit_undotted : rsplit_dot_1 "api" = ["api"].
Proof. reflexivity. Qed.

Example rsplit_trailing_dot : rsplit_dot_1 "myapp." = ["myapp"; EmptyString].
Proof. reflexivity. Qed.

Example strip_route : strip "/" "http://testserver/api/doc/schema/" = "http://testserver/api/doc/schema".
Proof. reflexivity. Qed.

Example strip_both_ends : strip "/" "//api/doc//" = "api/doc".
Proof. reflexivity. Qed.

Example sorted_names : sorted ["book"; "author"; "Zed"] = ["Zed"; "author"; "book"].
Proof. reflexivity. Qed.

Example escaped_text :
  escape_chars (String "a" (String dquote (String (ascii_of_nat 10) (String (ascii_of_nat 233) EmptyString))))
  = String "a" (String backslash (String dquote (String backslash ("n" ++ String backslash "u00e9")))).
Proof. reflexivity. Qed.

Example demo_listing_document :
  demo_listing =
    Ok (mkHttpResponse
          (json_text
             (JObject [("swaggerVersion", JString "1.1");
                       ("apis", JArray [api_entry_json "Zed"; api_entry_json "author";
                                        api_entry_json "book"]);
                       ("apiVersion", JString "0.1");
                       ("basePath", JString "http://testserver/api/doc/schema");
                       ("title", JArray [JString "Docs"])]))
          "application/json" 200).
Proof. vm_compute. reflexivity. Qed.

Example demo_declaration_found : http_status (demo_declaration "book") = 200%Z.
Proof. vm_compute. reflexivity. Qed.

Example demo_declaration_unknown : demo_declaration "magazine" = Raise Http404.
Proof. vm_compute. reflexivity. Qed.

Example demo_unloaded_module :
  fst (tastypie_api 0 (demo_world "otherapp.api" "book"))
  = Raise (ImproperlyConfigured "otherapp is not a valid python path").
Proof. vm_compute. reflexivity. Qed.

Example demo_falsy_attribute :
  fst (tastypie_api 0 (demo_world "myapp.urls.names" "book"))
  = Raise (ImproperlyConfigured "myapp.urls.names is not a valid tastypie.api.Api instance").
Proof. vm_compute. reflexivity. Qed.

(** ** The order on names *)

Lemma ascii_compare_Lt_trans a b c :
  Ascii.compare a b = Lt → Ascii.compare b c = Lt → Ascii.compare a c = Lt.
Proof.
  unfold Ascii.compare. rewrite !N.compare_lt_iff. lia.
Qed.

Lemma string_compare_refl s : String.compare s s = Eq.
Proof.
  induction s as [|a s IH]; simpl; [done|].
  unfold Ascii.compare. by rewrite N.compare_refl.
Qed.

Lemma string_compare_Lt_trans s1 : ∀ s2 s3,
  String.compare s1 s2 = Lt → String.compare s2 s3 = Lt → String.compare s1 s3 = Lt.
Proof.
  induction s1 as [|a s1 IH]; intros [|b s2] [|c s3]; simpl; try done.
  destruct (Ascii.compare a b) eqn:Hab; try done;
    destruct (Ascii.compare b c) eqn:Hbc; try done.
  - apply Ascii.compare_eq_iff in Hab, Hbc. subst.
    rewrite (proj2 (N.compare_eq_iff _ _) eq_refl : Ascii.compare c c = Eq). eauto.
  - apply Ascii.compare_eq_iff in Hab. subst. by rewrite Hbc.
  - apply Ascii.compare_eq_iff in Hbc. subst. by rewrite Hab.
  - by rewrite (ascii_compare_Lt_trans _ _ _ Hab Hbc).
Qed.

Lemma string_le_alt s1 s2 :
  string_le s1 s2 ↔ s1 = s2 ∨ String.compare s1 s2 = Lt.
Proof.
  unfold string_le, String.leb.
  destruct (String.compare s1 s2) eqn:Hc; split; try done; eauto.
  - apply String.compare_eq_iff in Hc. eauto.
  - intros [->|?]; [|done]. by rewrite string_compare_refl in Hc.
Qed.

Global Instance string_le_total : Total string_le.
Proof. intros s1 s2. apply String.leb_total. Qed.

Global Instance string_le_trans : Transitive string_le.
Proof.
  intros s1 s2 s3. rewrite !string_le_alt.
  intros [->|H12] [->|H23]; eauto using string_compare_Lt_trans.
Qed.

Global Instance string_le_antisymm : AntiSymm eq string_le.
Proof. intros s1 s2. apply String.leb_antisym. Qed.

Lemma sorted_StronglySorted names : StronglySorted string_le (sorted names).
Proof. apply StronglySorted_merge_sort; apply _. Qed.

Lemma sorted_Permutation names : sorted names ≡ₚ names.
Proof. apply merge_sort_Permutation. Qed.

(** The outcome of [sorted] does not depend on the order in which the
    dictionary hands out its keys. *)
Lemma sorted_order_irrelevant names1 names2 :
  names1 ≡ₚ names2 → sorted names1 = sorted names2.
Proof.
  intros Hp. apply (StronglySorted_unique string_le).
  - apply sorted_StronglySorted.
  - apply sorted_StronglySorted.
  - by rewrite !sorted_Permutation.
Qed.

Lemma py_keys_dict d names :
  py_keys (PDict d) = Ok names → NoDup names ∧ ∀ k, k ∈ names ↔ is_Some (d !! k).
Proof.
  intros [= <-]. split.
  - apply NoDup_fst_map_to_list.
  - intros k. rewrite list_elem_of_fmap. split.
    + intros [[k' v] [-> Hin]]. apply elem_of_map_to_list in Hin. eauto.
    + intros [v Hv]. exists (k, v). split; [done|]. by apply elem_of_map_to_list.
Qed.

(** ** Structural induction on values *)

Lemma py_size_list_elem x l :
  x ∈ l → py_size x < py_size (PList l).
Proof.
  simpl. induction 1 as [x l|x y l _ IH]; simpl; lia.
Qed.

Lemma py_size_dict_elem (d : gmap string pyval) k x :
  d !! k = Some x → py_size x < py_size (PDict d).
Proof.
  intros Hk. simpl. rewrite map_fold_foldr.
  apply elem_of_map_to_list in Hk.
  induction (map_to_list d) as [|[k' x'] l IH]; [by apply elem_of_nil in Hk|].
  simpl. apply elem_of_cons in Hk as [[= -> ->]|Hk]; [lia|].
  specialize (IH Hk). lia.
Qed.

Lemma pyval_deep_ind (P : pyval → Prop) :
  P PNone →
  (∀ b, P (PBool b)) →
  (∀ z, P (PInt z)) →
  (∀ s, P (PStr s)) →
  (∀ s, P (PLazy s)) →
  (∀ l, Forall P l → P (PList l)) →
  (∀ d, map_Forall (λ _, P) d → P (PDict d)) →
  (∀ cls attrs, P (PObj cls attrs)) →
  ∀ v, P v.
Proof.
  intros HNone HBool HInt HStr HLazy HList HDict HObj v.
  remember (py_size v) as n eqn:Hn. revert v Hn.
  induction (lt_wf n) as [n _ IH]. intros v ->.
  destruct v as [| | | | |l|d|]; eauto.
  - apply HList, Forall_forall. intros x Hx.
    eapply IH; [|reflexivity]. by apply py_size_list_elem.
  - apply HDict. intros k x Hk.
    eapply IH; [|reflexivity]. by eapply py_size_dict_elem.
Qed.

(** ** The encoder *)

Lemma collect_cons {A B} (f : A → result B) x l :
  collect f (x :: l) =
  match f x with
  | Raise e => Raise e
  | Ok j => match collect f l with
            | Raise e => Raise e
            | Ok js => Ok (j :: js)
            end
  end.
Proof. reflexivity. Qed.

Lemma collect_Ok {A B} (f : A → result B) l js :
  collect f l = Ok js ↔ Forall2 (λ x j, f x = Ok j) l js.
Proof.
  revert js. induction l as [|x l IH]; intros js.
  - split.
    + intros [= <-]. constructor.
    + intros H. by inversion H.
  - rewrite collect_cons. split.
    + destruct (f x) as [j|e] eqn:Hx; [|done].
      destruct (collect f l) as [js'|e] eqn:Hl; [|done].
      intros [= <-]. constructor; [done|]. by apply IH.
    + intros H. inversion H as [|? j ? js' Hx Hl]; subst.
      rewrite Hx. apply IH in Hl. by rewrite Hl.
Qed.

Lemma collect_Raise {A B} (f : A → result B) l e :
  collect f l = Raise e → ∃ x, x ∈ l ∧ f x = Raise e.
Proof.
  induction l as [|x l IH]; [done|]. rewrite collect_cons.
  destruct (f x) as [j|e'] eqn:Hx.
  - destruct (collect f l) as [js|e'] eqn:Hl; [done|].
    intros [= ->]. destruct IH as (y & Hy & Hfy); [done|].
    exists y. split; [by right|done].
  - intros [= ->]. exists x. split; [by left|done].
Qed.

Lemma collect_all_Ok {A B} (f : A → result B) l :
  (∀ x, x ∈ l → ∃ j, f x = Ok j) → ∃ js, collect f l = Ok js.
Proof.
  intros Hall. destruct (collect f l) as [js|e] eqn:Hl; [eauto|].
  apply collect_Raise in Hl as (x & Hx & Hfx).
  destruct (Hall x Hx) as [j Hj]. congruence.
Qed.

Lemma iterencode_PList l :
  iterencode (PList l) =
  match collect iterencode l with
  | Ok js => Ok (JArray js)
  | Raise e => Raise e
  end.
Proof. reflexivity. Qed.

Lemma iterencode_PDict d :
  iterencode (PDict d) =
  match collect encode_item (map_to_list d) with
  | Ok ms => Ok (JObject ms)
  | Raise e => Raise e
  end.
Proof.
  simpl. rewrite map_fold_foldr. unfold collect.
  assert (∀ l : list (string * pyval),
    foldr (uncurry (λ (k : string) (x : pyval) (acc : result (list (string * json))),
             match iterencode x with
             | Raise e => Raise e
             | Ok j => match acc with
                       | Raise e => Raise e
                       | Ok ms => Ok ((k, j) :: ms)
                       end
             end)) (Ok []) l
    = foldr (λ x acc,
               match encode_item x with
               | Raise e => Raise e
               | Ok j => match acc with
                         | Raise e => Raise e
                         | Ok js => Ok (j :: js)
                         end
               end) (Ok []) l) as ->; [|done].
  induction l as [|[k x] l IH]; [done|]. simpl. rewrite IH.
  unfold encode_item. simpl. by destruct (iterencode x).
Qed.

Lemma iterencode_PDict_Ok d j :
  iterencode (PDict d) = Ok j →
  ∃ ms, j = JObject ms ∧ Forall2 (λ kv m, encode_item kv = Ok m) (map_to_list d) ms.
Proof.
  rewrite iterencode_PDict.
  destruct (collect encode_item (map_to_list d)) as [ms|e] eqn:Hc; [|done].
  intros [= <-]. exists ms. split; [done|]. by apply collect_Ok.
Qed.

Lemma encode_item_Ok kv m :
  encode_item kv = Ok m ↔ fst m = fst kv ∧ iterencode (snd kv) = Ok (snd m).
Proof.
  unfold encode_item. destruct kv as [k v], m as [k' j]; simpl.
  destruct (iterencode v) as [j'|e]; split.
  - by intros [= -> ->].
  - by intros [-> [= ->]].
  - done.
  - by intros [_ ?].
Qed.

Lemma encoded_members_keys kvs ms :
  Forall2 (λ kv m, encode_item kv = Ok m) kvs ms → ms.*1 = kvs.*1.
Proof.
  induction 1 as [|kv m kvs ms Hm _ IH]; [done|].
  apply encode_item_Ok in Hm as [Hk _]. rewrite !fmap_cons. by f_equal.
Qed.

Lemma encoded_members_elem kvs ms k j :
  Forall2 (λ kv m, encode_item kv = Ok m) kvs ms →
  (k, j) ∈ ms ↔ ∃ v, (k, v) ∈ kvs ∧ iterencode v = Ok j.
Proof.
  induction 1 as [|[k0 v0] [k1 j1] kvs ms Hm _ IH].
  - split; [by intros ?%elem_of_nil|]. by intros (v & ?%elem_of_nil & _).
  - apply encode_item_Ok in Hm as [Hk Hj]; simpl in *. subst k1.
    rewrite elem_of_cons, IH. split.
    + intros [[= -> ->]|(v & Hv & Hvj)].
      * exists v0. split; [left|]; done.
      * exists v. split; [by right|done].
    + intros (v & Hv & Hvj). apply elem_of_cons in Hv as [[= -> ->]|Hv].
      * left. congruence.
      * right. eauto.
Qed.

Lemma encoded_members_member kvs ms k v :
  Forall2 (λ kv m, encode_item kv = Ok m) kvs ms →
  NoDup kvs.*1 → (k, v) ∈ kvs →
  ∃ j, member k ms = Some j ∧ iterencode v = Ok j.
Proof.
  induction 1 as [|[k0 v0] [k1 j1] kvs ms Hm _ IH]; intros Hnd Hin.
  - by apply elem_of_nil in Hin.
  - apply encode_item_Ok in Hm as [Hk Hj]; simpl in *. subst k1.
    apply NoDup_cons in Hnd as [Hnotin Hnd].
    apply elem_of_cons in Hin as [[= -> ->]|Hin].
    + rewrite String.eqb_refl. eauto.
    + destruct (String.eqb_spec k k0) as [->|_].
      * exfalso. apply Hnotin. apply list_elem_of_fmap. by exists (k0, v).
      * by apply IH.
Qed.

(** The members of an encoded dictionary are the encoded values, each
    under its own key and each key once. *)
Lemma iterencode_dict_members (d : gmap string pyval) ms :
  iterencode (PDict d) = Ok (JObject ms) →
  NoDup ms.*1 ∧
  ∀ k j, (k, j) ∈ ms ↔ ∃ v, d !! k = Some v ∧ iterencode v = Ok j.
Proof.
  intros (ms' & [= <-] & HF)%iterencode_PDict_Ok. split.
  - pose proof (encoded_members_keys _ _ HF) as Hkeys. rewrite Hkeys.
    apply NoDup_fst_map_to_list.
  - intros k j. rewrite (encoded_members_elem _ _ k j HF).
    by setoid_rewrite elem_of_map_to_list.
Qed.

Lemma iterencode_dict_member (d : gmap string pyval) ms k v :
  iterencode (PDict d) = Ok (JObject ms) → d !! k = Some v →
  ∃ j, member k ms = Some j ∧ iterencode v = Ok j.
Proof.
  intros (ms' & [= <-] & HF)%iterencode_PDict_Ok Hk.
  eapply encoded_members_member; [done|apply NoDup_fst_map_to_list|].
  by apply elem_of_map_to_list.
Qed.

(** The only failure of the encoder is the [TypeError] of the [default]
    hook. *)
Lemma iterencode_Raise v e : iterencode v = Raise e → e = TypeError.
Proof.
  revert e. induction v as [| | | | |l IH|d IH|] using pyval_deep_ind;
    intros e; try done.
  - rewrite iterencode_PList.
    destruct (collect iterencode l) as [js|e'] eqn:Hc; [done|].
    intros [= ->]. apply collect_Raise in Hc as (x & Hx & Hfx).
    rewrite Forall_forall in IH. eauto.
  - rewrite iterencode_PDict.
    destruct (collect encode_item (map_to_list d)) as [ms|e'] eqn:Hc; [done|].
    intros [= ->]. apply collect_Raise in Hc as ([k x] & Hx & Hfx).
    apply elem_of_map_to_list in Hx. unfold encode_item in Hfx; simpl in Hfx.
    destruct (iterencode x) eqn:Hix; [done|]. injection Hfx as ->.
    eapply IH; eauto.
  - simpl. by intros [= <-].
Qed.

Lemma serializable_PDict (d : gmap string pyval) :
  serializable (PDict d) = true ↔ ∀ k v, d !! k = Some v → serializable v = true.
Proof.
  simpl. rewrite map_fold_foldr.
  setoid_rewrite <-elem_of_map_to_list.
  induction (map_to_list d) as [|[k v] l IH]; simpl.
  - split; [|done]. by intros _ k v ?%elem_of_nil.
  - rewrite andb_true_iff, IH. split.
    + intros [Hv Hl] k' v' [[= -> ->]|Hin]%elem_of_cons; eauto.
    + intros Hall. split; [apply (Hall k); by left|].
      intros k' v' Hin. apply (Hall k'). by right.
Qed.

(** [json.dumps] accepts exactly the values with no plain object below. *)
Lemma iterencode_serializable v :
  serializable v = true ↔ ∃ j, iterencode v = Ok j.
Proof.
  induction v as [| | | | |l IH|d IH|] using pyval_deep_ind;
    try (split; [by eauto|done]).
  - rewrite iterencode_PList. simpl. rewrite forallb_forall.
    rewrite Forall_forall in IH. split.
    + intros Hall. destruct (collect_all_Ok iterencode l) as [js Hjs].
      * intros x Hx. apply IH; [done|]. apply Hall. by apply list_elem_of_In.
      * rewrite Hjs. eauto.
    + intros [j Hj] x Hx%list_elem_of_In.
      destruct (collect iterencode l) as [js|e] eqn:Hc; [|done].
      apply collect_Ok in Hc. apply IH; [done|].
      apply list_elem_of_lookup in Hx as [i Hi].
      destruct (Forall2_lookup_l _ _ _ _ _ Hc Hi) as (jx & _ & Hjx). eauto.
  - rewrite serializable_PDict, iterencode_PDict. split.
    + intros Hall. destruct (collect_all_Ok encode_item (map_to_list d)) as [ms Hms].
      * intros [k x] Hx%elem_of_map_to_list.
        destruct (proj1 (IH k x Hx) (Hall k x Hx)) as [j Hj].
        exists (k, j). unfold encode_item; simpl. by rewrite Hj.
      * rewrite Hms. eauto.
    + intros [j Hj] k x Hk.
      destruct (collect encode_item (map_to_list d)) as [ms|e] eqn:Hc; [|done].
      apply collect_Ok in Hc. apply (IH k x Hk).
      apply elem_of_map_to_list, list_elem_of_lookup in Hk as [i Hi].
      destruct (Forall2_lookup_l _ _ _ _ _ Hc Hi) as (m & _ & Hm).
      apply encode_item_Ok in Hm as [_ Hm]. eauto.
  - split; [done|]. by intros [j ?].
Qed.

(** Forcing the lazy strings beforehand changes nothing: the encoder does
    it. *)
Lemma iterencode_force v : iterencode (force v) = iterencode v.
Proof.
  induction v as [| | | | |l IH|d IH|] using pyval_deep_ind; try done.
  - simpl force. rewrite !iterencode_PList.
    assert (collect iterencode (map force l) = collect iterencode l) as ->; [|done].
    induction IH as [|x l Hx _ IHl]; [done|].
    simpl map. rewrite !collect_cons, Hx, IHl. done.
  - simpl force. rewrite !iterencode_PDict, map_to_list_fmap.
    assert (collect encode_item (prod_map id force <$> map_to_list d)
            = collect encode_item (map_to_list d)) as ->; [|done].
    assert (Forall (λ kv, iterencode (force (snd kv)) = iterencode (snd kv))
              (map_to_list d)) as HF.
    { apply Forall_forall. intros [k x] Hx%elem_of_map_to_list. by eapply IH. }
    induction HF as [|[k x] l Hx _ IHl]; [done|].
    rewrite fmap_cons, !collect_cons, IHl.
    unfold encode_item at 1 3; simpl in *. by rewrite Hx.
Qed.

(** Whatever sits at a position of an encoded value is encoded at the same
    position of the document. *)
Lemma iterencode_at p : ∀ v j x,
  iterencode v = Ok j → py_at p v = Some x →
  ∃ jx, json_at p j = Some jx ∧ iterencode x = Ok jx.
Proof.
  induction p as [|[i|k] p IH]; intros v j x Hv Hat; simpl in *.
  - injection Hat as <-. eauto.
  - destruct v as [| | | | |l| |]; try done.
    destruct (l !! i) as [y|] eqn:Hi; [|done].
    rewrite iterencode_PList in Hv.
    destruct (collect iterencode l) as [js|e] eqn:Hc; [|done].
    injection Hv as <-. apply collect_Ok in Hc.
    destruct (Forall2_lookup_l _ _ _ _ _ Hc Hi) as (jy & Hjy & Hy).
    rewrite Hjy. eauto.
  - destruct v as [| | | | | |d|]; try done.
    destruct (d !! k) as [y|] eqn:Hk; [|done].
    destruct (iterencode_PDict_Ok _ _ Hv) as (ms & -> & _).
    destruct (iterencode_dict_member _ _ _ _ Hv Hk) as (jy & Hjy & Hy).
    rewrite Hjy. eauto.
Qed.

(** ** The monad *)

Lemma bind_Ok {A B} (m : M A) (f : A → M B) w b w' :
  bind m f w = (Ok b, w') ↔ ∃ a w1, m w = (Ok a, w1) ∧ f a w1 = (Ok b, w').
Proof.
  unfold bind. destruct (m w) as [[a|e] w1]; split.
  - eauto.
  - by intros (a' & w1' & [= -> ->] & ?).
  - done.
  - by intros (a' & w1' & ? & ?).
Qed.

Lemma bind_eq {A B} (m : M A) (f : A → M B) w a w1 :
  m w = (Ok a, w1) → bind m f w = f a w1.
Proof. unfold bind. by intros ->. Qed.

Lemma bind_Raise_l {A B} (m : M A) (f : A → M B) w e w1 :
  m w = (Raise e, w1) → bind m f w = (Raise e, w1).
Proof. unfold bind. by intros ->. Qed.

Lemma lift_Ok {A} (r : result A) w a w' :
  lift r w = (Ok a, w') ↔ r = Ok a ∧ w' = w.
Proof. unfold lift. split; [by intros [= -> ->]|by intros [-> ->]]. Qed.

Lemma get_view_Ok self w o w' :
  get_view self w = (Ok o, w') ↔ heap w !! self = Some o ∧ w' = w.
Proof.
  unfold get_view. destruct (heap w !! self); split;
    try (by intros [= -> ->]); try (by intros [[= ->] ->]); by intros [? _].
Qed.

(** ** TastypieApiMixin *)

Lemma rsplit_last_dot_None s :
  rsplit_last_dot s = None ↔ has_char "." s = false.
Proof.
  induction s as [|c s IH]; simpl; [done|].
  destruct (rsplit_last_dot s) as [[p a]|].
  - split; [done|]. intros [_ H]%orb_false_iff. by apply IH in H.
  - destruct (Ascii.eqb c "."); simpl; [done|]. by rewrite <-IH.
Qed.

Lemma rsplit_last_dot_app p a :
  has_char "." a = false → rsplit_last_dot (p ++ "." ++ a) = Some (p, a).
Proof.
  intros Ha%rsplit_last_dot_None.
  change ("." ++ a) with (String "." a).
  induction p as [|c p IH]; simpl.
  - by rewrite Ha.
  - by rewrite IH.
Qed.

(** The accessor, case by case. *)
Lemma tastypie_api_unfold self w :
  tastypie_api self w =
  match heap w !! self with
  | None => (Raise AttributeError, w)
  | Some o =>
      let cached := default (class_tastypie_api w) (inst_tastypie_api o) in
      if py_truthy cached then (Ok cached, w)
      else match resolve_path (sys_modules w) (kwargs o) with
           | Ok found => (Ok found, with_cache self o found w)
           | Raise e => (Raise e, w)
           end
  end.
Proof.
  unfold tastypie_api, read_tastypie_api, bind, get_view, ret, raise, resolve_path.
  destruct (heap w !! self) as [o|] eqn:Ho; [|done]. simpl.
  destruct (py_truthy (default (class_tastypie_api w) (inst_tastypie_api o))) eqn:Hc;
    simpl; [by rewrite Ho|].
  rewrite Ho.
  destruct (kwargs o !! "tastypie_api_module") as [s|]; [|done].
  destruct (String.eqb s EmptyString); [done|].
  destruct (rsplit_dot_1 s) as [|path [|attr [|? ?]]]; try done.
  destruct (sys_modules w !! path) as [module|]; [|done].
  destruct (py_truthy (default PNone (module !! attr))) eqn:Hf; simpl; [|done].
  unfold write_tastypie_api, bind, get_view, with_cache. rewrite Ho. simpl.
  rewrite lookup_insert_eq. done.
Qed.

Lemma resolve_path_Ok modules kw found :
  resolve_path modules kw = Ok found → py_truthy found = true.
Proof.
  unfold resolve_path. repeat case_match; try done. by intros [= <-].
Qed.

(** What a successful access leaves behind. *)
Lemma tastypie_api_Ok self w r w' :
  tastypie_api self w = (Ok r, w') →
  py_truthy r = true ∧
  sys_modules w' = sys_modules w ∧
  class_tastypie_api w' = class_tastypie_api w ∧
  (∀ other, other ≠ self → heap w' !! other = heap w !! other) ∧
  ∃ o o', heap w !! self = Some o ∧ heap w' !! self = Some o' ∧
          kwargs o' = kwargs o ∧ request_path o' = request_path o ∧
          default (class_tastypie_api w') (inst_tastypie_api o') = r.
Proof.
  rewrite tastypie_api_unfold.
  destruct (heap w !! self) as [o|] eqn:Ho; [|done]. simpl.
  destruct (py_truthy _) eqn:Hc.
  - intros [= <- <-]. repeat split; try done. by exists o, o.
  - destruct (resolve_path _ _) as [found|e] eqn:Hr; [|done].
    intros [= <- <-]. apply resolve_path_Ok in Hr. repeat split; try done.
    + intros other Hne. simpl. by rewrite lookup_insert_ne.
    + eexists o, _. simpl. rewrite lookup_insert_eq. done.
Qed.

(** A hit on the cache returns it and touches nothing. *)
Lemma tastypie_api_cached self w o :
  heap w !! self = Some o →
  py_truthy (default (class_tastypie_api w) (inst_tastypie_api o)) = true →
  tastypie_api self w = (Ok (default (class_tastypie_api w) (inst_tastypie_api o)), w).
Proof. intros Ho Hc. rewrite tastypie_api_unfold, Ho. simpl. by rewrite Hc. Qed.

(** The outcome of an access depends on the modules, the class attribute
    and the object accessed, on nothing else in the world. *)
Lemma tastypie_api_local self w1 w2 :
  sys_modules w1 = sys_modules w2 →
  class_tastypie_api w1 = class_tastypie_api w2 →
  heap w1 !! self = heap w2 !! self →
  fst (tastypie_api self w1) = fst (tastypie_api self w2).
Proof.
  intros Hm Hc Hh. rewrite !tastypie_api_unfold, Hm, Hc, Hh.
  destruct (heap w2 !! self) as [o|]; [|done]. simpl.
  destruct (py_truthy _); [done|]. by destruct (resolve_path _ _).
Qed.

(** Every failure of the resolution of a dotted path is a configuration
    error. *)
Lemma resolve_path_dotted_Raise modules kw s e :
  kw !! "tastypie_api_module" = Some s → has_char "." s = true →
  resolve_path modules kw = Raise e → ∃ msg, e = ImproperlyConfigured msg.
Proof.
  intros Hs Hdot. unfold resolve_path, rsplit_dot_1. rewrite Hs.
  destruct (rsplit_last_dot s) as [[p a]|] eqn:Hsplit.
  - repeat case_match; try done; intros [= <-]; eauto.
  - apply rsplit_last_dot_None in Hsplit. congruence.
Qed.

(** A missing or empty path is a configuration error. *)
Lemma resolve_path_missing modules kw :
  kw !! "tastypie_api_module" = None ∨ kw !! "tastypie_api_module" = Some EmptyString →
  resolve_path modules kw = Raise (ImproperlyConfigured msg_must_be_defined).
Proof. unfold resolve_path. by intros [->| ->]. Qed.

(** A path with no dot does not unpack into module and attribute. *)
Lemma resolve_path_undotted modules kw s :
  kw !! "tastypie_api_module" = Some s → s ≠ EmptyString → has_char "." s = false →
  resolve_path modules kw = Raise ValueError.
Proof.
  intros Hs Hne Hdot%rsplit_last_dot_None. unfold resolve_path, rsplit_dot_1.
  rewrite Hs, Hdot. by destruct (String.eqb_spec s EmptyString).
Qed.

(** The three outcomes at the level of the accessor, for a view with
    nothing cached. *)
Lemma tastypie_api_missing self w o :
  heap w !! self = Some o →
  py_truthy (default (class_tastypie_api w) (inst_tastypie_api o)) = false →
  kwargs o !! "tastypie_api_module" = None
  ∨ kwargs o !! "tastypie_api_module" = Some EmptyString →
  tastypie_api self w = (Raise (ImproperlyConfigured msg_must_be_defined), w).
Proof.
  intros Ho Hc Hkw. rewrite tastypie_api_unfold, Ho. simpl. rewrite Hc.
  by rewrite resolve_path_missing.
Qed.

Lemma tastypie_api_dotted_failure self w o s e w' :
  heap w !! self = Some o →
  kwargs o !! "tastypie_api_module" = Some s → has_char "." s = true →
  tastypie_api self w = (Raise e, w') →
  w' = w ∧ ∃ msg, e = ImproperlyConfigured msg.
Proof.
  intros Ho Hs Hdot. rewrite tastypie_api_unfold, Ho. simpl.
  destruct (py_truthy _); [done|].
  destruct (resolve_path _ _) as [found|e'] eqn:Hr; [done|].
  intros [= -> ->]. split; [done|]. by eapply resolve_path_dotted_Raise.
Qed.

Lemma tastypie_api_undotted self w o s :
  heap w !! self = Some o →
  py_truthy (default (class_tastypie_api w) (inst_tastypie_api o)) = false →
  kwargs o !! "tastypie_api_module" = Some s →
  s ≠ EmptyString → has_char "." s = false →
  tastypie_api self w = (Raise ValueError, w).
Proof.
  intros Ho Hc Hs Hne Hdot. rewrite tastypie_api_unfold, Ho. simpl. rewrite Hc.
  by rewrite (resolve_path_undotted _ _ s).
Qed.

(** C4: with the path ["api"], which holds no dot, the accessor raises
    [ValueError] where a configuration error is due; the client sees a
    server error either way. *)
Theorem tastypie_api_undotted_path_ValueError :
  tastypie_api 0 (demo_world "api" "book") =
    (Raise ValueError, demo_world "api" "book")
  ∧ ∀ msg, fst (tastypie_api 0 (demo_world "api" "book")) ≠ Raise (ImproperlyConfigured msg).
Proof.
  assert (tastypie_api 0 (demo_world "api" "book")
          = (Raise ValueError, demo_world "api" "book")) as H.
  { by apply (tastypie_api_undotted 0 _ (demo_view "api" "book") "api"). }
  split; [done|]. intros msg. by rewrite H.
Qed.

(** C10: once the path splits into a loaded module and an attribute name,
    the attribute's truth value alone decides: a falsy value, [None] for an
    absent attribute included, raises the configuration error, and any
    truthy value whatever is returned and cached as the registry. *)
Theorem tastypie_api_truthiness_only self w o s path attr module :
  heap w !! self = Some o →
  py_truthy (default (class_tastypie_api w) (inst_tastypie_api o)) = false →
  kwargs o !! "tastypie_api_module" = Some s →
  rsplit_last_dot s = Some (path, attr) →
  sys_modules w !! path = Some module →
  tastypie_api self w =
    match module !! attr with
    | Some found =>
        if py_truthy found then (Ok found, with_cache self o found w)
        else (Raise (ImproperlyConfigured
                       (s ++ " is not a valid tastypie.api.Api instance")), w)
    | None =>
        (Raise (ImproperlyConfigured
                  (s ++ " is not a valid tastypie.api.Api instance")), w)
    end.
Proof.
  intros Ho Hc Hs Hsplit Hm. rewrite tastypie_api_unfold, Ho. simpl. rewrite Hc.
  unfold resolve_path, rsplit_dot_1. rewrite Hs, Hsplit, Hm.
  destruct (String.eqb_spec s EmptyString) as [->|_]; [done|].
  destruct (module !! attr) as [found|]; simpl; [|done].
  by destruct (py_truthy found).
Qed.

Lemma tastypie_api_truthiness_only_witness :
  tastypie_api 0 (demo_world "myapp.urls.version" "book") =
    (Ok (PInt 3),
     with_cache 0 (demo_view "myapp.urls.version" "book") (PInt 3)
       (demo_world "myapp.urls.version" "book")).
Proof.
  etrans.
  - apply (tastypie_api_truthiness_only 0 (demo_world "myapp.urls.version" "book")
             (demo_view "myapp.urls.version" "book") "myapp.urls.version"
             "myapp.urls" "version"
             (<["api" := demo_api]> (<["version" := PInt 3]> (<["names" := PList []]> ∅))));
      reflexivity.
  - reflexivity.
Defined.

(** C9: after a successful access the object holds the registry: any later
    access on it returns the same registry and leaves the world as it is,
    whatever [sys.modules] and [self.kwargs] have become in between; the
    first access changes neither the modules, nor the class attribute, nor
    any other object, and another object's access goes as it would have
    gone before. *)
Theorem tastypie_api_cached_per_object self w r w' :
  tastypie_api self w = (Ok r, w') →
  (∀ w2 o' o2,
     heap w' !! self = Some o' → heap w2 !! self = Some o2 →
     inst_tastypie_api o2 = inst_tastypie_api o' →
     class_tastypie_api w2 = class_tastypie_api w' →
     tastypie_api self w2 = (Ok r, w2))
  ∧ tastypie_api self w' = (Ok r, w')
  ∧ sys_modules w' = sys_modules w
  ∧ class_tastypie_api w' = class_tastypie_api w
  ∧ (∀ other, other ≠ self → heap w' !! other = heap w !! other)
  ∧ (∀ other, other ≠ self →
       fst (tastypie_api other w') = fst (tastypie_api other w)).
Proof.
  intros Hacc.
  destruct (tastypie_api_Ok _ _ _ _ Hacc)
    as (Htruthy & Hmods & Hcls & Hother & o & o' & Ho & Ho' & _ & _ & Hr).
  assert (∀ w2 o1 o2,
     heap w' !! self = Some o1 → heap w2 !! self = Some o2 →
     inst_tastypie_api o2 = inst_tastypie_api o1 →
     class_tastypie_api w2 = class_tastypie_api w' →
     tastypie_api self w2 = (Ok r, w2)) as Hlater.
  { intros w2 o1 o2 Ho1 Ho2 Hinst Hcls2. rewrite Ho' in Ho1. injection Ho1 as <-.
    rewrite <-Hr, <-Hinst, <-Hcls2. apply tastypie_api_cached; [done|].
    by rewrite Hcls2, Hinst, Hr. }
  repeat split; try done.
  - by eapply Hlater.
  - intros other Hne. apply tastypie_api_local; auto.
Qed.

Lemma tastypie_api_cached_per_object_witness :
  tastypie_api 0
    (with_cache 0 (demo_view "myapp.urls.api" "book") demo_api
       (demo_world "myapp.urls.api" "book"))
  = (Ok demo_api,
     with_cache 0 (demo_view "myapp.urls.api" "book") demo_api
       (demo_world "myapp.urls.api" "book")).
Proof.
  apply (tastypie_api_cached_per_object 0 (demo_world "myapp.urls.api" "book")).
  reflexivity.
Defined.

(** ** Stripping slashes *)

Lemma rstrip_snoc c s : rstrip c (s ++ String c EmptyString) = rstrip c s.
Proof.
  induction s as [|a s IH]; simpl.
  - by rewrite Ascii.eqb_refl.
  - by rewrite IH.
Qed.

Lemma rstrip_id c s : ends_with c s = false → rstrip c s = s.
Proof.
  induction s as [|a s IH]; [done|]. simpl. destruct s as [|b s].
  - simpl. by intros ->.
  - intros H. rewrite (IH H). done.
Qed.

Lemma lstrip_id c s : starts_with c s = false → lstrip c s = s.
Proof. destruct s as [|a s]; simpl; [done|]. by intros ->. Qed.

Lemma rstrip_no_trailing c s : ends_with c (rstrip c s) = false.
Proof.
  induction s as [|a s IH]; [done|]. simpl.
  destruct (rstrip c s) as [|b r] eqn:Hr.
  - destruct (Ascii.eqb a c) eqn:Ha; simpl; [done|]. by rewrite Ha.
  - done.
Qed.

(** [strip] leaves no slash at the end, whatever the string. *)
Lemma strip_no_trailing c s : ends_with c (strip c s) = false.
Proof. apply rstrip_no_trailing. Qed.

(** On a string that begins with no slash and ends with exactly one, [strip]
    removes that one character. *)
Lemma strip_one_trailing c stem :
  starts_with c stem = false → ends_with c stem = false →
  strip c (stem ++ String c EmptyString) = stem.
Proof.
  intros Hs He. unfold strip. destruct stem as [|a stem].
  - simpl. by rewrite Ascii.eqb_refl.
  - simpl in Hs. change (String a stem ++ String c EmptyString)
      with (String a (stem ++ String c EmptyString)).
    simpl lstrip. rewrite Hs.
    change (String a (stem ++ String c EmptyString))
      with (String a stem ++ String c EmptyString).
    rewrite rstrip_snoc. by apply rstrip_id.
Qed.

(** ** JSONView *)

Lemma del_if_in_delete k (c : gmap string pyval) : del_if_in k c = delete k c.
Proof.
  unfold del_if_in. case_bool_decide as Hk; [done|].
  symmetry. apply delete_id. by apply eq_None_not_Some.
Qed.

Lemma strip_internal_keys_delete (context : gmap string pyval) :
  strip_internal_keys context = delete "view" (delete "params" context).
Proof.
  unfold strip_internal_keys. simpl. rewrite !del_if_in_delete.
  apply delete_id. apply lookup_delete_eq.
Qed.

Lemma lookup_strip_internal_keys (context : gmap string pyval) k :
  strip_internal_keys context !! k =
  if bool_decide (k = "params" ∨ k = "view") then None else context !! k.
Proof.
  rewrite strip_internal_keys_delete. case_bool_decide as Hk.
  - destruct Hk as [->| ->].
    + rewrite lookup_delete_ne by done. apply lookup_delete_eq.
    + apply lookup_delete_eq.
  - rewrite !lookup_delete_ne by naive_solver. done.
Qed.

Lemma render_to_response_unfold context :
  render_to_response context =
  match response_document context with
  | Ok j => Ok (mkHttpResponse (json_text j) "application/json" 200)
  | Raise e => Raise e
  end.
Proof.
  unfold render_to_response, json_dumps, response_document.
  by destruct (iterencode _).
Qed.

Lemma response_document_Ok context j :
  response_document context = Ok j → ∃ ms, j = JObject ms.
Proof. intros (ms & -> & _)%iterencode_PDict_Ok. eauto. Qed.

Lemma render_to_response_Ok context resp :
  render_to_response context = Ok resp →
  ∃ ms, response_document context = Ok (JObject ms)
        ∧ resp = mkHttpResponse (json_text (JObject ms)) "application/json" 200.
Proof.
  rewrite render_to_response_unfold.
  destruct (response_document context) as [j|e] eqn:Hd; [|done].
  intros [= <-]. destruct (response_document_Ok _ _ Hd) as [ms ->]. eauto.
Qed.

Lemma member_None k ms : member k ms = None ↔ k ∉ ms.*1.
Proof.
  induction ms as [|[k' j] ms IH]; simpl.
  - split; [|done]. intros _. apply not_elem_of_nil.
  - rewrite not_elem_of_cons. destruct (String.eqb_spec k k') as [->|Hne]; simpl.
    + split; [done|]. by intros [? _].
    + rewrite IH. naive_solver.
Qed.

Lemma member_Some_elem k j ms : member k ms = Some j → (k, j) ∈ ms.
Proof.
  induction ms as [|[k' j'] ms IH]; simpl; [done|].
  destruct (String.eqb_spec k k') as [->|Hne].
  - intros [= ->]. by left.
  - intros H. right. auto.
Qed.

(** A key of the context other than the two internal ones is a member of
    the document, with the encoding of its value. *)
Lemma response_document_member context ms k v :
  response_document context = Ok (JObject ms) →
  context !! k = Some v → k ≠ "params" → k ≠ "view" →
  ∃ j, member k ms = Some j ∧ iterencode v = Ok j.
Proof.
  intros Hd Hk Hp Hv. eapply iterencode_dict_member; [exact Hd|].
  rewrite lookup_strip_internal_keys. rewrite bool_decide_eq_false_2 by naive_solver.
  done.
Qed.

(** C3: whenever the responder answers, its text is that of a document
    none of whose members is named [params] or [view], whether or not the
    context held these keys; the members are the encodings of all the other
    entries of the context. *)
Theorem render_to_response_drops_params_and_view context resp :
  render_to_response context = Ok resp →
  ∃ ms, response_document context = Ok (JObject ms)
        ∧ content resp = json_text (JObject ms)
        ∧ member "params" ms = None
        ∧ member "view" ms = None
        ∧ ∀ k j, (k, j) ∈ ms ↔
                 (k ≠ "params" ∧ k ≠ "view"
                  ∧ ∃ v, context !! k = Some v ∧ iterencode v = Ok j).
Proof.
  intros (ms & Hd & ->)%render_to_response_Ok. exists ms.
  destruct (iterencode_dict_members _ _ Hd) as [Hnd Hms].
  assert (∀ k j, (k, j) ∈ ms ↔
                 (k ≠ "params" ∧ k ≠ "view"
                  ∧ ∃ v, context !! k = Some v ∧ iterencode v = Ok j)) as Hiff.
  { intros k j. rewrite Hms. setoid_rewrite lookup_strip_internal_keys.
    case_bool_decide as Hk; naive_solver. }
  split_and!; try done.
  - apply member_None. intros ([k j] & Hk & Hin)%list_elem_of_fmap.
    simpl in Hk. subst k. apply Hiff in Hin. naive_solver.
  - apply member_None. intros ([k j] & Hk & Hin)%list_elem_of_fmap.
    simpl in Hk. subst k. apply Hiff in Hin. naive_solver.
Qed.

Lemma render_to_response_drops_params_and_view_witness :
  ∃ ms, response_document demo_base = Ok (JObject ms)
        ∧ member "params" ms = None ∧ member "view" ms = None.
Proof.
  destruct (render_to_response_drops_params_and_view
              demo_base
              (mkHttpResponse
                 (json_text (JObject [("title", JArray [JString "Docs"])]))
                 "application/json" 200))
    as (ms & Hd & _ & Hp & Hv & _).
  - vm_compute. reflexivity.
  - exists ms. auto.
Defined.

(** C5: a lazy string at any position below a key that is serialised is
    encoded, at the same position of the document, as the JSON string of
    its text. *)
Theorem render_to_response_forces_lazy context resp k p s :
  render_to_response context = Ok resp →
  k ≠ "params" → k ≠ "view" →
  py_at (Key k :: p) (PDict context) = Some (PLazy s) →
  ∃ j, response_document context = Ok j
       ∧ content resp = json_text j
       ∧ json_at (Key k :: p) j = Some (JString s).
Proof.
  intros (ms & Hd & ->)%render_to_response_Ok Hp Hv Hat.
  exists (JObject ms). split_and!; try done.
  destruct (iterencode_at (Key k :: p) (PDict (strip_internal_keys context))
              (JObject ms) (PLazy s) Hd) as (jx & Hjx & Hx).
  - simpl in Hat |- *. rewrite lookup_strip_internal_keys.
    rewrite bool_decide_eq_false_2 by naive_solver. done.
  - simpl in Hx. by injection Hx as <-.
Qed.

Lemma render_to_response_forces_lazy_witness :
  ∃ j, response_document demo_base = Ok j
       ∧ json_at [Key "title"; Idx 0] j = Some (JString "Docs").
Proof.
  destruct (render_to_response_forces_lazy
              demo_base
              (mkHttpResponse
                 (json_text (JObject [("title", JArray [JString "Docs"])]))
                 "application/json" 200)
              "title" [Idx 0] "Docs")
    as (j & Hd & _ & Hj).
  - vm_compute. reflexivity.
  - done.
  - done.
  - vm_compute. reflexivity.
  - exists j. auto.
Defined.

(** C8: the responder either answers, and then with content type
    [application/json], or fails with the [TypeError] of a value that
    [json.dumps] does not accept; it answers exactly when the context,
    internal keys apart, is serialisable. *)
Theorem render_to_response_content_type context :
  match render_to_response context with
  | Ok resp =>
      content_type resp = "application/json"
      ∧ serializable (PDict (strip_internal_keys context)) = true
  | Raise e =>
      e = TypeError
      ∧ serializable (PDict (strip_internal_keys context)) = false
  end.
Proof.
  rewrite render_to_response_unfold. unfold response_document.
  destruct (iterencode (PDict (strip_internal_keys context))) as [j|e] eqn:Hd.
  - split; [done|]. apply iterencode_serializable. eauto.
  - split; [by eapply iterencode_Raise|].
    apply not_true_is_false. intros [j Hj]%iterencode_serializable. congruence.
Qed.

(** ** The endpoint views *)

Section ViewFacts.

Variable TemplateView_get_context_data : view → gmap string string → gmap string pyval.
Variable resolve_namespace : string → result string.
Variable reverse : string → result string.
Variable build_absolute_uri : string → string.
Variable mapping_obj : Type.
Variable ResourceSwaggerMapping : pyval → result mapping_obj.
Variable build_apis : mapping_obj → result pyval.
Variable build_models : mapping_obj → result pyval.

Local Abbreviation swagger_context :=
  (SwaggerApiDataMixin_get_context_data TemplateView_get_context_data).
Local Abbreviation listing_context :=
  (ResourcesView_get_context_data TemplateView_get_context_data
     resolve_namespace reverse build_absolute_uri).
Local Abbreviation declaration_context :=
  (SchemaView_get_context_data TemplateView_get_context_data build_absolute_uri
     mapping_obj ResourceSwaggerMapping build_apis build_models).
Local Abbreviation listing_get :=
  (ResourcesView_get TemplateView_get_context_data
     resolve_namespace reverse build_absolute_uri).
Local Abbreviation declaration_get :=
  (SchemaView_get TemplateView_get_context_data build_absolute_uri
     mapping_obj ResourceSwaggerMapping build_apis build_models).

Lemma swagger_context_eq self kw w o :
  heap w !! self = Some o →
  swagger_context self kw w =
    (Ok (dict_update (TemplateView_get_context_data o kw)
           (<["apiVersion" := PStr "0.1"]> (<["swaggerVersion" := PStr "1.1"]> ∅))), w).
Proof.
  intros Ho. unfold SwaggerApiDataMixin_get_context_data, bind, get_view.
  by rewrite Ho.
Qed.

Lemma swagger_context_Ok self kw w context w' :
  swagger_context self kw w = (Ok context, w') →
  w' = w
  ∧ context !! "apiVersion" = Some (PStr "0.1")
  ∧ context !! "swaggerVersion" = Some (PStr "1.1").
Proof.
  unfold SwaggerApiDataMixin_get_context_data, bind, get_view, ret.
  destruct (heap w !! self) as [o|]; [|done]. intros [= <- <-].
  unfold dict_update. split_and!; [done| |].
  - apply lookup_union_Some_l. by simplify_map_eq.
  - apply lookup_union_Some_l. by simplify_map_eq.
Qed.

Lemma dict_update_lookup_other (context other : gmap string pyval) k :
  other !! k = None → dict_update context other !! k = context !! k.
Proof. intros Hk. unfold dict_update. by rewrite lookup_union_r. Qed.

Lemma dict_update_lookup (context other : gmap string pyval) k v :
  other !! k = Some v → dict_update context other !! k = Some v.
Proof. intros Hk. unfold dict_update. by apply lookup_union_Some_l. Qed.

(** The listing context, once the registry and the route resolve. *)
Lemma listing_context_eq self kw w o api reg w' namespace url :
  heap w !! self = Some o →
  tastypie_api self w = (Ok api, w') →
  py_getattr api "_registry" = Ok (PDict reg) →
  resolve_namespace (request_path o) = Ok namespace →
  reverse (namespace ++ ":schema") = Ok url →
  listing_context self kw w =
    (Ok (dict_update
           (dict_update (TemplateView_get_context_data o kw)
              (<["apiVersion" := PStr "0.1"]> (<["swaggerVersion" := PStr "1.1"]> ∅)))
           (<["basePath" := PStr (strip "/" (build_absolute_uri url))]>
              (<["apis" := PList (map api_entry (sorted (map fst (map_to_list reg))))]> ∅))),
     w').
Proof.
  intros Ho Hacc Hreg Hns Hurl.
  destruct (tastypie_api_Ok _ _ _ _ Hacc)
    as (_ & _ & _ & _ & o1 & o' & Ho1 & Ho' & _ & Hpath & _).
  rewrite Ho in Ho1. injection Ho1 as <-.
  unfold ResourcesView_get_context_data.
  rewrite (bind_eq _ _ _ _ _ (swagger_context_eq self kw w o Ho)).
  rewrite (bind_eq _ _ _ _ _ Hacc).
  unfold bind, lift, get_view, ret. rewrite Hreg. simpl.
  rewrite Ho', Hpath, Hns, Hurl. done.
Qed.

Lemma listing_context_Ok self kw w context w' :
  listing_context self kw w = (Ok context, w') →
  context !! "apiVersion" = Some (PStr "0.1")
  ∧ context !! "swaggerVersion" = Some (PStr "1.1").
Proof.
  unfold ResourcesView_get_context_data.
  intros (c0 & w0 & Hc0 & H)%bind_Ok.
  apply swagger_context_Ok in Hc0 as (_ & Hapi & Hswagger).
  apply bind_Ok in H as (api & w1 & _ & H).
  apply bind_Ok in H as (registry & w2 & _ & H).
  apply bind_Ok in H as (keys & w3 & _ & H).
  apply bind_Ok in H as (o & w4 & _ & H).
  apply bind_Ok in H as (namespace & w5 & _ & H).
  apply bind_Ok in H as (url & w6 & _ & H).
  injection H as <- <-.
  rewrite !dict_update_lookup_other by by simplify_map_eq. done.
Qed.

Lemma declaration_context_Ok self kw w context w' :
  declaration_context self kw w = (Ok context, w') →
  context !! "apiVersion" = Some (PStr "0.1")
  ∧ context !! "swaggerVersion" = Some (PStr "1.1").
Proof.
  unfold SchemaView_get_context_data.
  intros (api & w1 & _ & H)%bind_Ok.
  apply bind_Ok in H as (registry & w2 & _ & H).
  apply bind_Ok in H as (found & w3 & _ & H).
  apply bind_Ok in H as (? & w4 & _ & H).
  apply bind_Ok in H as (api' & w5 & _ & H).
  apply bind_Ok in H as (registry' & w6 & _ & H).
  apply bind_Ok in H as (resource & w7 & _ & H).
  apply bind_Ok in H as (mapping & w8 & _ & H).
  apply bind_Ok in H as (c0 & w9 & Hc0 & H).
  apply swagger_context_Ok in Hc0 as (_ & Hapi & Hswagger).
  apply bind_Ok in H as (apis & w10 & _ & H).
  apply bind_Ok in H as (models & w11 & _ & H).
  injection H as <- <-.
  rewrite !dict_update_lookup_other by by simplify_map_eq. done.
Qed.

Lemma get_Ok get_context_data self w resp :
  fst (get get_context_data self w) = Ok resp →
  ∃ o context w', heap w !! self = Some o
                  ∧ get_context_data self (kwargs o) w = (Ok context, w')
                  ∧ render_to_response context = Ok resp.
Proof.
  unfold get. destruct (bind _ _ w) as [r w'] eqn:Hb. simpl. intros ->.
  apply bind_Ok in Hb as (o & w0 & [Ho ->]%get_view_Ok & Hb).
  apply bind_Ok in Hb as (context & w1 & Hc & Hr).
  apply lift_Ok in Hr as [Hr ->]. eauto 6.
Qed.

Lemma iterencode_api_entries names :
  iterencode (PList (map api_entry names)) = Ok (JArray (map api_entry_json names)).
Proof.
  rewrite iterencode_PList.
  assert (collect iterencode (map api_entry names) = Ok (map api_entry_json names))
    as ->; [|done].
  induction names as [|name names IH]; [done|].
  simpl map. rewrite collect_cons, IH.
  unfold api_entry at 1. rewrite iterencode_PDict, map_to_list_singleton. done.
Qed.

(** C1: once the accessor yields an object whose [_registry] is the
    dictionary [reg] and the schema route resolves, the context holds
    under [apis] one entry [{"path": "/<name>"}] per name of a list that
    is sorted, free of duplicates and made of exactly the keys of [reg];
    a response carries the same list as its member [apis]. *)
Theorem ResourcesView_apis_sorted_keys self w o api reg w' namespace url :
  heap w !! self = Some o →
  tastypie_api self w = (Ok api, w') →
  py_getattr api "_registry" = Ok (PDict reg) →
  resolve_namespace (request_path o) = Ok namespace →
  reverse (namespace ++ ":schema") = Ok url →
  ∃ names context,
    listing_context self (kwargs o) w = (Ok context, w')
    ∧ context !! "apis" = Some (PList (map api_entry names))
    ∧ StronglySorted string_le names
    ∧ NoDup names
    ∧ (∀ k, k ∈ names ↔ is_Some (reg !! k))
    ∧ (∀ resp,
         fst (listing_get self w) = Ok resp →
         ∃ ms, response_document context = Ok (JObject ms)
               ∧ content resp = json_text (JObject ms)
               ∧ member "apis" ms = Some (JArray (map api_entry_json names))).
Proof.
  intros Ho Hacc Hreg Hns Hurl.
  pose proof (listing_context_eq _ (kwargs o) _ _ _ _ _ _ _ Ho Hacc Hreg Hns Hurl) as Hctx.
  destruct (py_keys_dict reg (map fst (map_to_list reg)) eq_refl) as [Hnd Hkeys].
  eexists (sorted (map fst (map_to_list reg))), _.
  split; [exact Hctx|].
  assert (∀ base : gmap string pyval,
    dict_update base
      (<["basePath" := PStr (strip "/" (build_absolute_uri url))]>
         (<["apis" := PList (map api_entry (sorted (map fst (map_to_list reg))))]> ∅))
      !! "apis" = Some (PList (map api_entry (sorted (map fst (map_to_list reg))))))
    as Hapis.
  { intros base. apply dict_update_lookup. by simplify_map_eq. }
  split_and!.
  - apply Hapis.
  - apply sorted_StronglySorted.
  - by rewrite sorted_Permutation.
  - intros k. by rewrite sorted_Permutation.
  - intros resp (o1 & context & w1 & Ho1 & Hc & Hr)%get_Ok.
    rewrite Ho in Ho1. injection Ho1 as <-.
    rewrite Hctx in Hc. injection Hc as <- <-.
    apply render_to_response_Ok in Hr as (ms & Hd & ->).
    exists ms. split_and!; [done..|].
    destruct (response_document_member _ _ "apis" _ Hd (Hapis _)) as (j & Hj & Hje);
      [done..|].
    rewrite iterencode_api_entries in Hje. by injection Hje as <-.
Qed.

(** C6: when the absolute URL of the schema route is [stem ++ "/"], with
    [stem] beginning and ending with no slash, [basePath] is [stem]: the
    URL without its last character, itself ending with no slash. *)
Theorem ResourcesView_basePath_strips_slash self w o api reg w' namespace url stem :
  heap w !! self = Some o →
  tastypie_api self w = (Ok api, w') →
  py_getattr api "_registry" = Ok (PDict reg) →
  resolve_namespace (request_path o) = Ok namespace →
  reverse (namespace ++ ":schema") = Ok url →
  build_absolute_uri url = stem ++ "/" →
  starts_with "/" stem = false →
  ends_with "/" stem = false →
  ∃ context,
    listing_context self (kwargs o) w = (Ok context, w')
    ∧ context !! "basePath" = Some (PStr stem)
    ∧ (∀ resp,
         fst (listing_get self w) = Ok resp →
         ∃ ms, response_document context = Ok (JObject ms)
               ∧ content resp = json_text (JObject ms)
               ∧ member "basePath" ms = Some (JString stem)).
Proof.
  intros Ho Hacc Hreg Hns Hurl Habs Hstart Hend.
  pose proof (listing_context_eq _ (kwargs o) _ _ _ _ _ _ _ Ho Hacc Hreg Hns Hurl) as Hctx.
  rewrite Habs, (strip_one_trailing "/" stem Hstart Hend) in Hctx.
  eexists. split; [exact Hctx|].
  assert (∀ base : gmap string pyval,
    dict_update base
      (<["basePath" := PStr stem]>
         (<["apis" := PList (map api_entry (sorted (map fst (map_to_list reg))))]> ∅))
      !! "basePath" = Some (PStr stem)) as Hbase.
  { intros base. apply dict_update_lookup. by simplify_map_eq. }
  split; [apply Hbase|].
  intros resp (o1 & context & w1 & Ho1 & Hc & Hr)%get_Ok.
  rewrite Ho in Ho1. injection Ho1 as <-.
  rewrite Hctx in Hc. injection Hc as <- <-.
  apply render_to_response_Ok in Hr as (ms & Hd & ->).
  exists ms. split_and!; [done..|].
  destruct (response_document_member _ _ "basePath" _ Hd (Hbase _)) as (j & Hj & Hje);
    [done..|].
  simpl in Hje. by injection Hje as <-.
Qed.

(** C2: when the accessor yields an object whose [_registry] is the
    dictionary [reg] and the requested name, if any, is no key of [reg],
    the declaration endpoint raises [Http404], which the client sees as
    status 404. *)
Theorem SchemaView_unknown_resource_404 self w o api reg w' :
  heap w !! self = Some o →
  tastypie_api self w = (Ok api, w') →
  py_getattr api "_registry" = Ok (PDict reg) →
  (∀ name, kwargs o !! "resource" = Some name → reg !! name = None) →
  declaration_get self w = (Raise Http404, w')
  ∧ http_status (fst (declaration_get self w)) = 404%Z.
Proof.
  intros Ho Hacc Hreg Habsent.
  assert (declaration_get self w = (Raise Http404, w')) as Hget.
  { unfold SchemaView_get, get, SchemaView_get_context_data.
    rewrite (bind_eq _ _ _ o w) by by apply get_view_Ok.
    apply bind_Raise_l.
    rewrite (bind_eq _ _ _ _ _ Hacc).
    unfold bind at 1. unfold lift at 1. rewrite Hreg.
    assert (py_contains (default PNone (PStr <$> kwargs o !! "resource")) (PDict reg)
            = Ok false) as Hfound.
    { destruct (kwargs o !! "resource") as [name|] eqn:Hname; simpl; [|done].
      rewrite (Habsent name eq_refl). done. }
    unfold bind at 1. unfold lift at 1. rewrite Hfound. done. }
  split; [done|]. by rewrite Hget.
Qed.

(** C7: the document of every response of the listing endpoint and of
    the declaration endpoint has the member [apiVersion] with value
    ["0.1"] and the member [swaggerVersion] with value ["1.1"]. *)
Theorem responses_carry_swagger_versions self w resp :
  fst (listing_get self w) = Ok resp ∨ fst (declaration_get self w) = Ok resp →
  ∃ o context ms,
    heap w !! self = Some o
    ∧ (fst (listing_context self (kwargs o) w) = Ok context
       ∨ fst (declaration_context self (kwargs o) w) = Ok context)
    ∧ response_document context = Ok (JObject ms)
    ∧ content resp = json_text (JObject ms)
    ∧ member "apiVersion" ms = Some (JString "0.1")
    ∧ member "swaggerVersion" ms = Some (JString "1.1").
Proof.
  intros Hresp.
  assert (∃ o context,
    heap w !! self = Some o
    ∧ (fst (listing_context self (kwargs o) w) = Ok context
       ∨ fst (declaration_context self (kwargs o) w) = Ok context)
    ∧ render_to_response context = Ok resp
    ∧ context !! "apiVersion" = Some (PStr "0.1")
    ∧ context !! "swaggerVersion" = Some (PStr "1.1"))
    as (o & context & Ho & Hfrom & Hr & Hapi & Hswagger).
  { destruct Hresp as [(o & context & w1 & Ho & Hc & Hr)%get_Ok
                      |(o & context & w1 & Ho & Hc & Hr)%get_Ok].
    - exists o, context. destruct (listing_context_Ok _ _ _ _ _ Hc). rewrite Hc. auto.
    - exists o, context. destruct (declaration_context_Ok _ _ _ _ _ Hc). rewrite Hc. auto. }
  apply render_to_response_Ok in Hr as (ms & Hd & ->).
  exists o, context, ms. split_and!; [done..| |].
  - destruct (response_document_member _ _ _ _ Hd Hapi) as (j & Hj & Hje); [done..|].
    simpl in Hje. by injection Hje as <-.
  - destruct (response_document_member _ _ _ _ Hd Hswagger) as (j & Hj & Hje); [done..|].
    simpl in Hje. by injection Hje as <-.
Qed.

End ViewFacts.

Lemma ResourcesView_apis_sorted_keys_witness :
  ∃ names,
    StronglySorted string_le names ∧ NoDup names
    ∧ (∀ k, k ∈ names ↔ is_Some (demo_registry !! k)).
Proof.
  destruct (ResourcesView_apis_sorted_keys demo_context demo_resolve_namespace
              demo_reverse demo_build_absolute_uri 0
              (demo_world "myapp.urls.api" "book") (demo_view "myapp.urls.api" "book")
              demo_api demo_registry
              (with_cache 0 (demo_view "myapp.urls.api" "book") demo_api
                 (demo_world "myapp.urls.api" "book"))
              "tastypie_swagger" "/api/doc/schema/")
    as (names & _ & _ & _ & Hsorted & Hnd & Hkeys & _).
  - reflexivity.
  - vm_compute. reflexivity.
  - reflexivity.
  - reflexivity.
  - reflexivity.
  - exists names. auto.
Defined.

Lemma ResourcesView_basePath_strips_slash_witness :
  ∃ context,
    fst (ResourcesView_get_context_data demo_context demo_resolve_namespace
           demo_reverse demo_build_absolute_uri 0 demo_kwargs
           (demo_world "myapp.urls.api" "book")) = Ok context
    ∧ context !! "basePath" = Some (PStr "http://testserver/api/doc/schema").
Proof.
  destruct (ResourcesView_basePath_strips_slash demo_context demo_resolve_namespace
              demo_reverse demo_build_absolute_uri 0
              (demo_world "myapp.urls.api" "book") (demo_view "myapp.urls.api" "book")
              demo_api demo_registry
              (with_cache 0 (demo_view "myapp.urls.api" "book") demo_api
                 (demo_world "myapp.urls.api" "book"))
              "tastypie_swagger" "/api/doc/schema/" "http://testserver/api/doc/schema")
    as (context & Hc & Hbase & _).
  - reflexivity.
  - vm_compute. reflexivity.
  - reflexivity.
  - reflexivity.
  - reflexivity.
  - reflexivity.
  - reflexivity.
  - reflexivity.
  - exists context. split; [|done]. change demo_kwargs
      with (kwargs (demo_view "myapp.urls.api" "book")). by rewrite Hc.
Defined.

Lemma SchemaView_unknown_resource_404_witness :
  http_status (demo_declaration "magazine") = 404%Z.
Proof.
  apply (SchemaView_unknown_resource_404 demo_context demo_build_absolute_uri pyval
           Ok demo_build_apis demo_build_models 0
           (demo_world "myapp.urls.api" "magazine")
           (demo_view "myapp.urls.api" "magazine")
           demo_api demo_registry
           (with_cache 0 (demo_view "myapp.urls.api" "magazine") demo_api
              (demo_world "myapp.urls.api" "magazine"))).
  - reflexivity.
  - vm_compute. reflexivity.
  - reflexivity.
  - intros name Hname. vm_compute in Hname. injection Hname as <-. reflexivity.
Defined.

Lemma responses_carry_swagger_versions_witness :
  ∃ ms, content demo_listing_response = json_text (JObject ms)
        ∧ member "apiVersion" ms = Some (JString "0.1")
        ∧ member "swaggerVersion" ms = Some (JString "1.1").
Proof.
  destruct (responses_carry_swagger_versions demo_context demo_resolve_namespace
              demo_reverse demo_build_absolute_uri pyval Ok demo_build_apis
              demo_build_models 0 (demo_world "myapp.urls.api" "book")
              demo_listing_response)
    as (_ & _ & ms & _ & _ & _ & Hc & Hapi & Hswagger).
  - left. vm_compute. reflexivity.
  - exists ms. auto.
Defined.

(** * Further properties *)

(** ** The accessor: failures and the cache *)

Lemma resolve_path_Raise_kinds modules kw e :
  resolve_path modules kw = Raise e →
  (e = ValueError
   ∧ ∃ s, kw !! "tastypie_api_module" = Some s ∧ s ≠ EmptyString
          ∧ has_char "." s = false)
  ∨ (∃ msg, e = ImproperlyConfigured msg)
    ∧ (kw !! "tastypie_api_module" = None
       ∨ kw !! "tastypie_api_module" = Some EmptyString
       ∨ ∃ s, kw !! "tastypie_api_module" = Some s ∧ has_char "." s = true).
Proof.
  unfold resolve_path, rsplit_dot_1.
  destruct (kw !! "tastypie_api_module") as [s|] eqn:Hs.
  - destruct (String.eqb_spec s EmptyString) as [->|Hne].
    + intros [= <-]. right. eauto.
    + destruct (rsplit_last_dot s) as [[p a]|] eqn:Hsplit.
      * assert (has_char "." s = true) as Hdot.
        { apply not_false_iff_true. intros Hn%rsplit_last_dot_None. congruence. }
        repeat case_match; try done; intros [= <-];
          (right; split; [eauto|right; right; eauto]).
      * apply rsplit_last_dot_None in Hsplit. intros [= <-]. left. eauto.
  - intros [= <-]. right. eauto.
Qed.

(** X1: an access that fails leaves the world as it was, so nothing is
    cached; on a live view the exception is [ValueError] exactly for a
    non-empty path that holds no dot, and [ImproperlyConfigured] for a path
    that is missing, empty or dotted. *)
Theorem tastypie_api_failure_kinds self w o e w' :
  heap w !! self = Some o →
  tastypie_api self w = (Raise e, w') →
  w' = w
  ∧ ((e = ValueError
      ∧ ∃ s, kwargs o !! "tastypie_api_module" = Some s ∧ s ≠ EmptyString
             ∧ has_char "." s = false)
     ∨ (∃ msg, e = ImproperlyConfigured msg)
       ∧ (kwargs o !! "tastypie_api_module" = None
          ∨ kwargs o !! "tastypie_api_module" = Some EmptyString
          ∨ ∃ s, kwargs o !! "tastypie_api_module" = Some s
                 ∧ has_char "." s = true)).
Proof.
  intros Ho. rewrite tastypie_api_unfold, Ho. simpl.
  destruct (py_truthy _); [done|].
  destruct (resolve_path _ _) as [found|e'] eqn:Hr; [done|].
  intros [= -> ->]. split; [done|]. by eapply resolve_path_Raise_kinds.
Qed.

Lemma tastypie_api_failure_kinds_witness :
  ∃ s, kwargs (demo_view "api" "book") !! "tastypie_api_module" = Some s
       ∧ has_char "." s = false.
Proof.
  destruct (tastypie_api_failure_kinds 0 (demo_world "api" "book")
              (demo_view "api" "book") ValueError (demo_world "api" "book"))
    as [_ [(_ & s & Hs & _ & Hdot)|[[msg Hmsg] _]]].
  - reflexivity.
  - vm_compute. reflexivity.
  - exists s. auto.
  - discriminate Hmsg.
Defined.

(** X2: with nothing cached and the path missing or empty, the accessor
    raises the configuration error whose text runs the three pieces of
    lines 38-40 together, whatever [sys.modules] holds. *)
Theorem tastypie_api_missing_path_message self w o :
  heap w !! self = Some o →
  py_truthy (default (class_tastypie_api w) (inst_tastypie_api o)) = false →
  kwargs o !! "tastypie_api_module" = None
  ∨ kwargs o !! "tastypie_api_module" = Some EmptyString →
  tastypie_api self w =
    (Raise (ImproperlyConfigured
              ("tastypie_api_module must be definedas an extra parameters in urls.py "
               ++ "with its value beinga path to a tastypie.api.Api instance.")), w).
Proof.
  intros Ho Hc Hkw. rewrite tastypie_api_unfold, Ho. simpl. rewrite Hc.
  by rewrite resolve_path_missing.
Qed.

Lemma tastypie_api_missing_path_message_witness :
  ∃ msg, fst (tastypie_api 0 (demo_world EmptyString "book"))
         = Raise (ImproperlyConfigured msg).
Proof.
  eexists. erewrite (tastypie_api_missing_path_message 0
                       (demo_world EmptyString "book")
                       (demo_view EmptyString "book")).
  - reflexivity.
  - reflexivity.
  - reflexivity.
  - right. reflexivity.
Defined.

(** X3: the path is split at its last dot: for [p ++ "." ++ a] with no dot
    in [a] and no module [p] in [sys.modules], the accessor raises the
    configuration error naming [p], and imports nothing. *)
Theorem tastypie_api_unloaded_module self w o p a :
  heap w !! self = Some o →
  py_truthy (default (class_tastypie_api w) (inst_tastypie_api o)) = false →
  kwargs o !! "tastypie_api_module" = Some (p ++ "." ++ a) →
  has_char "." a = false →
  sys_modules w !! p = None →
  tastypie_api self w =
    (Raise (ImproperlyConfigured (p ++ " is not a valid python path")), w).
Proof.
  intros Ho Hc Hs Ha Hp. rewrite tastypie_api_unfold, Ho. simpl. rewrite Hc.
  unfold resolve_path, rsplit_dot_1.
  rewrite Hs, (rsplit_last_dot_app p a Ha), Hp.
  destruct (String.eqb_spec (p ++ "." ++ a) EmptyString) as [Heq|_]; [|done].
  by destruct p.
Qed.

Lemma tastypie_api_unloaded_module_witness :
  fst (tastypie_api 0 (demo_world "pkg.other.urls.api" "book"))
  = Raise (ImproperlyConfigured "pkg.other.urls is not a valid python path").
Proof.
  change "pkg.other.urls is not a valid python path"
    with ("pkg.other.urls" ++ " is not a valid python path").
  rewrite (tastypie_api_unloaded_module 0 (demo_world "pkg.other.urls.api" "book")
             (demo_view "pkg.other.urls.api" "book") "pkg.other.urls" "api");
    reflexivity.
Defined.

(** X4: the accessor keeps the cache truthy: if every registry held by a
    view object is truthy before an access, the same holds after it whatever
    its outcome; a registry it resolves and stores is truthy. *)
Theorem tastypie_api_keeps_cache_truthy self w r w' :
  cache_truthy w →
  tastypie_api self w = (r, w') →
  cache_truthy w' ∧ ∀ v, r = Ok v → py_truthy v = true.
Proof.
  intros Hinv Hacc. split.
  - revert Hacc. rewrite tastypie_api_unfold.
    destruct (heap w !! self) as [o|] eqn:Ho; [|by intros [= <- <-]]. simpl.
    destruct (py_truthy _); [by intros [= <- <-]|].
    destruct (resolve_path _ _) as [found|e] eqn:Hr; [|by intros [= <- <-]].
    intros [= <- <-]. apply resolve_path_Ok in Hr.
    intros other o' v Ho' Hv. simpl in Ho'.
    destruct (decide (other = self)) as [->|Hne].
    + rewrite lookup_insert_eq in Ho'. injection Ho' as <-. simpl in Hv. congruence.
    + rewrite lookup_insert_ne in Ho' by done. eauto.
  - intros v ->. by destruct (tastypie_api_Ok _ _ _ _ Hacc) as [? _].
Qed.

Lemma tastypie_api_keeps_cache_truthy_witness :
  cache_truthy
    (with_cache 0 (demo_view "myapp.urls.api" "book") demo_api
       (demo_world "myapp.urls.api" "book")).
Proof.
  eapply (tastypie_api_keeps_cache_truthy 0 (demo_world "myapp.urls.api" "book")
            (Ok demo_api)).
  - intros self o v Ho Hv. unfold demo_world in Ho. simpl in Ho.
    apply lookup_insert_Some in Ho as [[_ <-]|[_ Ho]]; [discriminate Hv|].
    by rewrite lookup_empty in Ho.
  - vm_compute. reflexivity.
Defined.

(** ** Slashes at both ends *)

Lemma lstrip_no_leading c s : starts_with c (lstrip c s) = false.
Proof.
  induction s as [|a s IH]; [done|]. simpl.
  destruct (Ascii.eqb a c) eqn:Ha; [done|]. simpl. done.
Qed.

Lemma rstrip_keeps_no_leading c s :
  starts_with c s = false → starts_with c (rstrip c s) = false.
Proof.
  destruct s as [|a s]; [done|]. simpl. intros Ha.
  destruct (rstrip c s); [|done]. rewrite Ha. done.
Qed.

Lemma strip_no_leading c s : starts_with c (strip c s) = false.
Proof. apply rstrip_keeps_no_leading, lstrip_no_leading. Qed.

Lemma bind_Raise {A B} (m : M A) (f : A → M B) w e w' :
  bind m f w = (Raise e, w') ↔
  m w = (Raise e, w') ∨ ∃ a w1, m w = (Ok a, w1) ∧ f a w1 = (Raise e, w').
Proof.
  unfold bind. destruct (m w) as [[a|e0] w1]; split.
  - eauto.
  - intros [?|(a' & w1' & [= -> ->] & ?)]; done.
  - intros [= -> ->]. by left.
  - intros [[= -> ->]|(a' & w1' & ? & ?)]; done.
Qed.

Lemma lift_Raise {A} (r : result A) w e w' :
  lift r w = (Raise e, w') ↔ r = Raise e ∧ w' = w.
Proof. unfold lift. split; [by intros [= -> ->]|by intros [-> ->]]. Qed.

Lemma get_view_Raise self w e w' :
  get_view self w = (Raise e, w') ↔ heap w !! self = None ∧ e = AttributeError ∧ w' = w.
Proof.
  unfold get_view. destruct (heap w !! self); split; try done.
  - by intros (? & _).
  - by intros [= <- <-].
  - by intros (_ & -> & ->).
Qed.

Lemma py_getattr_Raise o name e : py_getattr o name = Raise e → e = AttributeError.
Proof. unfold py_getattr. repeat case_match; try done; by intros [= <-]. Qed.

Lemma py_keys_Ok c keys : py_keys c = Ok keys → ∃ d, c = PDict d.
Proof. destruct c; try done. eauto. Qed.

Lemma py_keys_Raise c e : py_keys c = Raise e → e = AttributeError.
Proof. destruct c; try done; by intros [= <-]. Qed.

Lemma tastypie_api_failure_kinds_aux self w o e w' :
  heap w !! self = Some o →
  tastypie_api self w = (Raise e, w') →
  e = ValueError ∨ ∃ msg, e = ImproperlyConfigured msg.
Proof.
  intros Ho. rewrite tastypie_api_unfold, Ho. simpl.
  destruct (py_truthy _); [done|].
  destruct (resolve_path _ _) as [found|e'] eqn:Hr; [done|].
  intros [= -> ->].
  destruct (resolve_path_Raise_kinds _ _ _ Hr) as [[-> _]|[? _]]; auto.
Qed.

Section MoreViewFacts.

Variable TemplateView_get_context_data : view → gmap string string → gmap string pyval.
Variable resolve_namespace : string → result string.
Variable reverse : string → result string.
Variable build_absolute_uri : string → string.
Variable mapping_obj : Type.
Variable ResourceSwaggerMapping : pyval → result mapping_obj.
Variable build_apis : mapping_obj → result pyval.
Variable build_models : mapping_obj → result pyval.

Local Abbreviation swagger_context :=
  (SwaggerApiDataMixin_get_context_data TemplateView_get_context_data).
Local Abbreviation listing_context :=
  (ResourcesView_get_context_data TemplateView_get_context_data
     resolve_namespace reverse build_absolute_uri).
Local Abbreviation declaration_context :=
  (SchemaView_get_context_data TemplateView_get_context_data build_absolute_uri
     mapping_obj ResourceSwaggerMapping build_apis build_models).
Local Abbreviation listing_get :=
  (ResourcesView_get TemplateView_get_context_data
     resolve_namespace reverse build_absolute_uri).
Local Abbreviation declaration_get :=
  (SchemaView_get TemplateView_get_context_data build_absolute_uri
     mapping_obj ResourceSwaggerMapping build_apis build_models).
Local Abbreviation ui_context :=
  (SwaggerView_get_context_data TemplateView_get_context_data
     resolve_namespace reverse build_absolute_uri).

(** The listing context taken apart. *)
Lemma listing_context_inv self kw w context w' :
  listing_context self kw w = (Ok context, w') →
  ∃ o api reg namespace url,
    heap w !! self = Some o
    ∧ tastypie_api self w = (Ok api, w')
    ∧ py_getattr api "_registry" = Ok (PDict reg)
    ∧ resolve_namespace (request_path o) = Ok namespace
    ∧ reverse (namespace ++ ":schema") = Ok url
    ∧ context =
        dict_update
          (dict_update (TemplateView_get_context_data o kw)
             (<["apiVersion" := PStr "0.1"]> (<["swaggerVersion" := PStr "1.1"]> ∅)))
          (<["basePath" := PStr (strip "/" (build_absolute_uri url))]>
             (<["apis" := PList (map api_entry (sorted (map fst (map_to_list reg))))]> ∅)).
Proof.
  unfold ResourcesView_get_context_data.
  intros (c0 & w0 & Hc0 & H)%bind_Ok.
  unfold SwaggerApiDataMixin_get_context_data in Hc0.
  apply bind_Ok in Hc0 as (o & w00 & [Ho ->]%get_view_Ok & Hc0).
  injection Hc0 as <- <-.
  apply bind_Ok in H as (api & w1 & Hacc & H).
  apply bind_Ok in H as (registry & w2 & [Hreg ->]%lift_Ok & H).
  apply bind_Ok in H as (keys & w3 & [Hkeys ->]%lift_Ok & H).
  apply bind_Ok in H as (o' & w4 & [Ho' ->]%get_view_Ok & H).
  apply bind_Ok in H as (namespace & w5 & [Hns ->]%lift_Ok & H).
  apply bind_Ok in H as (url & w6 & [Hurl ->]%lift_Ok & H).
  injection H as <- <-.
  destruct (py_keys_Ok _ _ Hkeys) as [reg ->]. injection Hkeys as <-.
  destruct (tastypie_api_Ok _ _ _ _ Hacc)
    as (_ & _ & _ & _ & o1 & o2 & Ho1 & Ho2 & _ & Hpath & _).
  rewrite Ho in Ho1. injection Ho1 as <-.
  rewrite Ho' in Ho2. injection Ho2 as <-. rewrite Hpath in Hns.
  exists o, api, reg, namespace, url. split_and!; done.
Qed.

(** X5: the page of the user interface needs no registry: whenever the
    resources route resolves, [SwaggerView.get_context_data] succeeds and
    leaves the world untouched, even with a path the accessor would
    reject; it adds [discovery_url], which neither begins nor ends with a
    slash, and keeps every other entry of the framework's context. *)
Theorem SwaggerView_context_without_registry self kw w o namespace url :
  heap w !! self = Some o →
  resolve_namespace (request_path o) = Ok namespace →
  reverse (namespace ++ ":resources") = Ok url →
  ∃ context discovery_url,
    ui_context self kw w = (Ok context, w)
    ∧ context !! "discovery_url" = Some (PStr discovery_url)
    ∧ discovery_url = strip "/" (build_absolute_uri url)
    ∧ starts_with "/" discovery_url = false
    ∧ ends_with "/" discovery_url = false
    ∧ ∀ k, k ≠ "discovery_url" →
           context !! k = TemplateView_get_context_data o kw !! k.
Proof.
  intros Ho Hns Hurl. eexists _, (strip "/" (build_absolute_uri url)).
  split_and!.
  - unfold SwaggerView_get_context_data, bind, get_view, lift, ret.
    rewrite Ho, Hns, Hurl. reflexivity.
  - apply lookup_insert_eq.
  - done.
  - apply strip_no_leading.
  - apply strip_no_trailing.
  - intros k Hk. by rewrite lookup_insert_ne.
Qed.

(** X6: in the context of either JSON endpoint [basePath] is a string
    that neither begins nor ends with a slash, whatever URL the framework
    builds. *)
Theorem basePath_has_no_outer_slash self kw w context w' :
  listing_context self kw w = (Ok context, w')
  ∨ declaration_context self kw w = (Ok context, w') →
  ∃ basePath,
    context !! "basePath" = Some (PStr basePath)
    ∧ starts_with "/" basePath = false
    ∧ ends_with "/" basePath = false.
Proof.
  intros [H|H].
  - apply listing_context_inv in H as (o & api & reg & ns & url & _ & _ & _ & _ & _ & ->).
    exists (strip "/" (build_absolute_uri url)). split_and!.
    + apply dict_update_lookup. by simplify_map_eq.
    + apply strip_no_leading.
    + apply strip_no_trailing.
  - unfold SchemaView_get_context_data in H.
    apply bind_Ok in H as (api & w1 & _ & H).
    apply bind_Ok in H as (registry & w2 & _ & H).
    apply bind_Ok in H as (found & w3 & _ & H).
    apply bind_Ok in H as (? & w4 & _ & H).
    apply bind_Ok in H as (api' & w5 & _ & H).
    apply bind_Ok in H as (registry' & w6 & _ & H).
    apply bind_Ok in H as (resource & w7 & _ & H).
    apply bind_Ok in H as (mapping & w8 & _ & H).
    apply bind_Ok in H as (c0 & w9 & _ & H).
    apply bind_Ok in H as (apis & w10 & _ & H).
    apply bind_Ok in H as (models & w11 & _ & H).
    injection H as <- <-.
    exists (strip "/" (build_absolute_uri "/")). split_and!.
    + apply dict_update_lookup. by simplify_map_eq.
    + apply strip_no_leading.
    + apply strip_no_trailing.
Qed.

(** X7: a failure of the accessor is the failure of both JSON endpoints,
    with the world unchanged: a bad configuration is reported before the
    resource name is looked at, so an unknown resource gives no 404 then. *)
Theorem accessor_failure_fails_endpoints self w o e w' :
  heap w !! self = Some o →
  tastypie_api self w = (Raise e, w') →
  listing_get self w = (Raise e, w) ∧ declaration_get self w = (Raise e, w).
Proof.
  intros Ho Hacc.
  assert (w' = w) as ->.
  { revert Hacc. rewrite tastypie_api_unfold, Ho. simpl.
    destruct (py_truthy _); [done|].
    destruct (resolve_path _ _); [done|]. by intros [= _ <-]. }
  split.
  - unfold ResourcesView_get, get.
    rewrite (bind_eq _ _ _ o w) by by apply get_view_Ok.
    apply bind_Raise_l. unfold ResourcesView_get_context_data.
    rewrite (bind_eq _ _ _ _ _ (swagger_context_eq _ self (kwargs o) w o Ho)).
    by apply bind_Raise_l.
  - unfold SchemaView_get, get.
    rewrite (bind_eq _ _ _ o w) by by apply get_view_Ok.
    apply bind_Raise_l. unfold SchemaView_get_context_data.
    by apply bind_Raise_l.
Qed.

(** X8: an object that the accessor accepts but that has no [_registry]
    attribute makes both JSON endpoints fail with [AttributeError], a
    server error. *)
Theorem endpoints_need_registry_attribute self w o api w' e :
  heap w !! self = Some o →
  tastypie_api self w = (Ok api, w') →
  py_getattr api "_registry" = Raise e →
  e = AttributeError
  ∧ listing_get self w = (Raise AttributeError, w')
  ∧ declaration_get self w = (Raise AttributeError, w')
  ∧ http_status (fst (listing_get self w)) = 500%Z.
Proof.
  intros Ho Hacc Hreg.
  pose proof (py_getattr_Raise _ _ _ Hreg) as ->.
  assert (listing_get self w = (Raise AttributeError, w')) as Hl.
  { unfold ResourcesView_get, get.
    rewrite (bind_eq _ _ _ o w) by by apply get_view_Ok.
    apply bind_Raise_l. unfold ResourcesView_get_context_data.
    rewrite (bind_eq _ _ _ _ _ (swagger_context_eq _ self (kwargs o) w o Ho)).
    rewrite (bind_eq _ _ _ _ _ Hacc).
    apply bind_Raise_l. unfold lift. by rewrite Hreg. }
  split_and!; [done|done| |by rewrite Hl].
  unfold SchemaView_get, get.
  rewrite (bind_eq _ _ _ o w) by by apply get_view_Ok.
  apply bind_Raise_l. unfold SchemaView_get_context_data.
  rewrite (bind_eq _ _ _ _ _ Hacc).
  apply bind_Raise_l. unfold lift. by rewrite Hreg.
Qed.

(** X9: for a name that is a key of the registry the declaration context
    is built from the resource registered under that name: it is what
    [ResourceSwaggerMapping] receives, [apis] and [models] are what its
    builders return, [basePath] is the stripped site root; the second read
    of the accessor hits the cache, so the world is the one after the
    first. *)
Theorem SchemaView_known_resource self w o api reg w' name resource mapping apis models :
  heap w !! self = Some o →
  tastypie_api self w = (Ok api, w') →
  py_getattr api "_registry" = Ok (PDict reg) →
  kwargs o !! "resource" = Some name →
  reg !! name = Some resource →
  ResourceSwaggerMapping resource = Ok mapping →
  build_apis mapping = Ok apis →
  build_models mapping = Ok models →
  ∃ context,
    declaration_context self (kwargs o) w = (Ok context, w')
    ∧ context !! "apis" = Some apis
    ∧ context !! "models" = Some models
    ∧ context !! "basePath" = Some (PStr (strip "/" (build_absolute_uri "/")))
    ∧ context !! "apiVersion" = Some (PStr "0.1")
    ∧ context !! "swaggerVersion" = Some (PStr "1.1").
Proof.
  intros Ho Hacc Hreg Hname Hres Hmap Hapis Hmodels.
  destruct (tastypie_api_Ok _ _ _ _ Hacc)
    as (Htruthy & _ & _ & _ & o1 & o' & Ho1 & Ho' & _ & _ & Hr).
  assert (tastypie_api self w' = (Ok api, w')) as Hacc'.
  { rewrite <-Hr. apply tastypie_api_cached; [done|]. by rewrite Hr. }
  eexists. split.
  - unfold SchemaView_get_context_data. rewrite Hname. simpl.
    rewrite (bind_eq _ _ _ _ _ Hacc).
    unfold bind at 1. unfold lift at 1. rewrite Hreg.
    unfold bind at 1. unfold lift at 1. simpl. rewrite Hres. simpl.
    unfold bind at 1. unfold ret at 1.
    rewrite (bind_eq _ _ _ _ _ Hacc').
    unfold bind at 1. unfold lift at 1. rewrite Hreg.
    unfold bind at 1. unfold lift at 1. simpl. rewrite Hres. simpl.
    unfold bind at 1. unfold lift at 1. rewrite Hmap.
    rewrite (bind_eq _ _ _ _ _ (swagger_context_eq _ self (kwargs o) w' o' Ho')).
    unfold bind, lift, ret. rewrite Hapis, Hmodels. reflexivity.
  - split_and!.
    + apply dict_update_lookup. by simplify_map_eq.
    + apply dict_update_lookup. by simplify_map_eq.
    + apply dict_update_lookup. by simplify_map_eq.
    + rewrite dict_update_lookup_other by by simplify_map_eq.
      apply dict_update_lookup. by simplify_map_eq.
    + rewrite dict_update_lookup_other by by simplify_map_eq.
      apply dict_update_lookup. by simplify_map_eq.
Qed.

(** X10: the listing context keeps every entry of the framework's context
    except under the four keys it writes itself, where its own values
    replace whatever the framework put there. *)
Theorem ResourcesView_keeps_other_entries self kw w o context w' :
  heap w !! self = Some o →
  ResourcesView_get_context_data TemplateView_get_context_data
    resolve_namespace reverse build_absolute_uri self kw w = (Ok context, w') →
  (∀ k, k ∉ ["apiVersion"; "swaggerVersion"; "basePath"; "apis"] →
        context !! k = TemplateView_get_context_data o kw !! k)
  ∧ context !! "apiVersion" = Some (PStr "0.1")
  ∧ context !! "swaggerVersion" = Some (PStr "1.1")
  ∧ (∃ basePath, context !! "basePath" = Some (PStr basePath))
  ∧ (∃ apis, context !! "apis" = Some (PList apis)).
Proof.
  intros Ho (o1 & api & reg & ns & url & Ho1 & _ & _ & _ & _ & ->)%listing_context_inv.
  rewrite Ho in Ho1. injection Ho1 as <-. split_and!.
  - intros k Hk. rewrite !not_elem_of_cons in Hk.
    destruct Hk as (? & ? & ? & ? & _).
    rewrite !dict_update_lookup_other by by simplify_map_eq. done.
  - rewrite dict_update_lookup_other by by simplify_map_eq.
    apply dict_update_lookup. by simplify_map_eq.
  - rewrite dict_update_lookup_other by by simplify_map_eq.
    apply dict_update_lookup. by simplify_map_eq.
  - eexists. apply dict_update_lookup. by simplify_map_eq.
  - eexists. apply dict_update_lookup. by simplify_map_eq.
Qed.

(** X11: the listing depends on the set of registry keys only: for every
    duplicate-free enumeration of the keys, in whatever order, [apis] is
    the list of entries of its sorted form. *)
Theorem ResourcesView_apis_any_key_order self kw w api reg w' context w'' names :
  tastypie_api self w = (Ok api, w') →
  py_getattr api "_registry" = Ok (PDict reg) →
  listing_context self kw w = (Ok context, w'') →
  NoDup names →
  (∀ k, k ∈ names ↔ is_Some (reg !! k)) →
  context !! "apis" = Some (PList (map api_entry (sorted names))).
Proof.
  intros Hacc Hreg (o & api1 & reg1 & ns & url & _ & Hacc1 & Hreg1 & _ & _ & ->)%listing_context_inv
    Hnd Hnames.
  rewrite Hacc in Hacc1. injection Hacc1 as <- <-.
  rewrite Hreg in Hreg1. injection Hreg1 as <-.
  destruct (py_keys_dict reg (map fst (map_to_list reg)) eq_refl) as [Hnd' Hkeys].
  rewrite (sorted_order_irrelevant names (map fst (map_to_list reg))).
  - apply dict_update_lookup. by simplify_map_eq.
  - apply NoDup_Permutation; [done..|]. intros k. by rewrite Hnames, Hkeys.
Qed.

(** X12: a view object that has served the listing serves the same
    listing again, and changes nothing more, whatever [sys.modules] has
    become: the second request reads the registry from the cache.  The
    framework's context is assumed not to depend on the cached
    attribute. *)
Theorem ResourcesView_get_again self w resp w' modules :
  (∀ o1 o2 kw, kwargs o1 = kwargs o2 → request_path o1 = request_path o2 →
               TemplateView_get_context_data o1 kw = TemplateView_get_context_data o2 kw) →
  listing_get self w = (Ok resp, w') →
  listing_get self (with_modules modules w') = (Ok resp, with_modules modules w').
Proof.
  intros HT Hget. unfold ResourcesView_get, get in Hget.
  apply bind_Ok in Hget as (o & w0 & [Ho ->]%get_view_Ok & Hget).
  apply bind_Ok in Hget as (context & w1 & Hctx & [Hr <-]%lift_Ok).
  pose proof Hctx as
    (o1 & api & reg & ns & url & Ho1 & Hacc & Hreg & Hns & Hurl & Hcontext)%listing_context_inv.
  rewrite Ho in Ho1. injection Ho1 as <-.
  destruct (tastypie_api_Ok _ _ _ _ Hacc)
    as (Htruthy & _ & _ & _ & o1 & o' & Ho1 & Ho' & Hkw & Hpath & Hcached).
  rewrite Ho in Ho1. injection Ho1 as <-.
  assert (tastypie_api self (with_modules modules w')
          = (Ok api, with_modules modules w')) as Hacc'.
  { rewrite <-Hcached.
    apply (tastypie_api_cached self (with_modules modules w') o'); [done|].
    simpl. by rewrite Hcached. }
  unfold ResourcesView_get, get.
  rewrite (bind_eq _ _ _ o' (with_modules modules w')) by by apply get_view_Ok.
  rewrite Hkw.
  rewrite (bind_eq _ _ _ context (with_modules modules w')).
  - unfold lift. by rewrite Hr.
  - rewrite Hcontext, (HT o o' (kwargs o)) by done.
    apply (listing_context_eq _ _ _ _ self (kwargs o) _ o' api reg _ ns url);
      try done. by rewrite Hpath.
Qed.

(** X13: the listing endpoint raises no [Http404] of its own: on a live
    view every exception of a GET is the accessor's [ImproperlyConfigured]
    or [ValueError], the [AttributeError] of an object without a registry
    dictionary, the [TypeError] of [json.dumps], or what the framework's
    [resolve] or [reverse] raised. *)
Theorem ResourcesView_get_failure_kinds self w o e w' :
  heap w !! self = Some o →
  ResourcesView_get TemplateView_get_context_data
    resolve_namespace reverse build_absolute_uri self w = (Raise e, w') →
  (∃ msg, e = ImproperlyConfigured msg)
  ∨ e = ValueError ∨ e = AttributeError ∨ e = TypeError
  ∨ resolve_namespace (request_path o) = Raise e
  ∨ ∃ namespace, resolve_namespace (request_path o) = Ok namespace
                 ∧ reverse (namespace ++ ":schema") = Raise e.
Proof.
  intros Ho Hget. unfold ResourcesView_get, get in Hget.
  apply bind_Raise in Hget as [(Hn & _)%get_view_Raise|(o1 & w0 & [Ho1 ->]%get_view_Ok & Hget)];
    [congruence|].
  rewrite Ho in Ho1. injection Ho1 as <-.
  apply bind_Raise in Hget as [Hctx|(context & w1 & _ & [Hr _]%lift_Raise)].
  2:{ rewrite render_to_response_unfold in Hr. unfold response_document in Hr.
      destruct (iterencode _) as [j|e'] eqn:Hd; [done|]. injection Hr as ->.
      apply iterencode_Raise in Hd. auto. }
  unfold ResourcesView_get_context_data in Hctx.
  rewrite (bind_eq _ _ _ _ _ (swagger_context_eq _ self (kwargs o) w o Ho)) in Hctx.
  apply bind_Raise in Hctx as [Hacc|(api & w1 & Hacc & Hctx)].
  { destruct (tastypie_api_failure_kinds_aux _ _ _ _ _ Ho Hacc) as [->|[msg ->]]; eauto. }
  apply bind_Raise in Hctx as [[Hreg _]%lift_Raise|(registry & w2 & [_ ->]%lift_Ok & Hctx)].
  { apply py_getattr_Raise in Hreg. auto. }
  apply bind_Raise in Hctx as [[Hkeys _]%lift_Raise|(keys & w3 & [_ ->]%lift_Ok & Hctx)].
  { apply py_keys_Raise in Hkeys. auto. }
  destruct (tastypie_api_Ok _ _ _ _ Hacc)
    as (_ & _ & _ & _ & o1 & o' & Ho1 & Ho' & _ & Hpath & _).
  rewrite Ho in Ho1. injection Ho1 as <-.
  apply bind_Raise in Hctx as [(Hn & _)%get_view_Raise|(o2 & w4 & [Ho2 ->]%get_view_Ok & Hctx)];
    [congruence|].
  rewrite Ho' in Ho2. injection Ho2 as <-. rewrite Hpath in Hctx.
  apply bind_Raise in Hctx as [[Hns _]%lift_Raise|(ns & w5 & [Hns ->]%lift_Ok & Hctx)];
    [auto 6|].
  apply bind_Raise in Hctx as [[Hurl _]%lift_Raise|(url & w6 & _ & Hctx)].
  - do 5 right. eauto.
  - discriminate Hctx.
Qed.

End MoreViewFacts.

(** ** The responder: what is deleted and what is encoded *)

(** X14: after the loop of lines 80-82 the context holds neither [params]
    nor [view], so the test of line 83 is never true and the deletion of
    line 84 never runs; deleting is idempotent. *)
Theorem second_view_deletion_never_runs (context : gmap string pyval) :
  foldl (λ c k, del_if_in k c) context ["params"; "view"] !! "view" = None
  ∧ foldl (λ c k, del_if_in k c) context ["params"; "view"] !! "params" = None
  ∧ strip_internal_keys context
    = foldl (λ c k, del_if_in k c) context ["params"; "view"]
  ∧ strip_internal_keys (strip_internal_keys context) = strip_internal_keys context.
Proof.
  assert (foldl (λ c k, del_if_in k c) context ["params"; "view"]
          = delete "view" (delete "params" context)) as Hloop.
  { simpl. by rewrite !del_if_in_delete. }
  rewrite Hloop. split_and!.
  - apply lookup_delete_eq.
  - rewrite lookup_delete_ne by done. apply lookup_delete_eq.
  - apply strip_internal_keys_delete.
  - apply map_eq. intros k. rewrite !lookup_strip_internal_keys.
    by case_bool_decide.
Qed.



(** X16: a response has status 200 and its document is an object that
    names each member once and has as many members as the context has
    entries besides [params] and [view]. *)
Theorem render_to_response_members_distinct context resp :
  render_to_response context = Ok resp →
  status_code resp = 200%Z
  ∧ ∃ ms, response_document context = Ok (JObject ms)
          ∧ NoDup ms.*1
          ∧ length ms = size (delete "view" (delete "params" context))
          ∧ ∀ k j, member k ms = Some j ↔ (k, j) ∈ ms.
Proof.
  intros (ms & Hd & ->)%render_to_response_Ok. split; [done|].
  exists ms. destruct (iterencode_dict_members _ _ Hd) as [Hnd _].
  split_and!; [done|done| |].
  - apply iterencode_PDict_Ok in Hd as (ms' & [= <-] & HF).
    rewrite <-(Forall2_length _ _ _ HF), length_map_to_list.
    by rewrite strip_internal_keys_delete.
  - intros k j. split; [apply member_Some_elem|].
    intros Hin. clear Hd. induction ms as [|[k' j'] ms IH]; [by apply elem_of_nil in Hin|].
    apply NoDup_cons in Hnd as [Hnotin Hnd]. simpl.
    apply elem_of_cons in Hin as [[= <- <-]|Hin].
    + by rewrite String.eqb_refl.
    + destruct (String.eqb_spec k k') as [->|_]; [|by apply IH].
      exfalso. apply Hnotin. apply list_elem_of_fmap. by exists (k', j).
Qed.

Lemma render_to_response_members_distinct_witness :
  ∃ ms, response_document demo_base = Ok (JObject ms) ∧ NoDup ms.*1 ∧ length ms = 1.
Proof.
  destruct (render_to_response_members_distinct demo_base
              (mkHttpResponse
                 (json_text (JObject [("title", JArray [JString "Docs"])]))
                 "application/json" 200)) as (_ & ms & Hd & Hnd & Hlen & _).
  - vm_compute. reflexivity.
  - exists ms. split_and!; [done..|]. rewrite Hlen. vm_compute. reflexivity.
Defined.

(** X17: a plain object, one that is no [Promise], at any position below
    a key that is serialised makes the responder fail with [TypeError]:
    [LazyEncoder.default] hands it to the base class. *)
Theorem render_to_response_rejects_objects context k p cls attrs :
  k ≠ "params" → k ≠ "view" →
  py_at (Key k :: p) (PDict context) = Some (PObj cls attrs) →
  render_to_response context = Raise TypeError
  ∧ http_status (render_to_response context) = 500%Z.
Proof.
  intros Hp Hv Hat.
  assert (render_to_response context = Raise TypeError) as Hr.
  { rewrite render_to_response_unfold. unfold response_document.
    destruct (iterencode (PDict (strip_internal_keys context))) as [j|e] eqn:Hd.
    - destruct (iterencode_at (Key k :: p) _ _ (PObj cls attrs) Hd) as (jx & _ & Hx).
      + simpl in Hat |- *. rewrite lookup_strip_internal_keys.
        rewrite bool_decide_eq_false_2 by naive_solver. done.
      + discriminate Hx.
    - by rewrite (iterencode_Raise _ _ Hd). }
  split; [done|]. by rewrite Hr.
Qed.

Lemma render_to_response_rejects_objects_witness :
  render_to_response (<["owner" := PList [PNone; PObj "User" ∅]]> demo_base)
  = Raise TypeError.
Proof.
  apply (render_to_response_rejects_objects
           (<["owner" := PList [PNone; PObj "User" ∅]]> demo_base)
           "owner" [Idx 1] "User" ∅); [done|done|].
  vm_compute. reflexivity.
Defined.

(** X18: forcing every lazy string of the context before rendering
    changes nothing: the encoder does it, and a response or failure is the
    same either way. *)
Theorem render_to_response_force (context : gmap string pyval) :
  render_to_response (force <$> context) = render_to_response context.
Proof.
  unfold render_to_response, json_dumps.
  assert (strip_internal_keys (force <$> context)
          = force <$> strip_internal_keys context) as ->.
  { rewrite !strip_internal_keys_delete. by rewrite !fmap_delete. }
  change (PDict (force <$> strip_internal_keys context))
    with (force (PDict (strip_internal_keys context))).
  by rewrite iterencode_force.
Qed.

(** ** The sample site once more *)

Lemma SwaggerView_context_without_registry_witness :
  ∃ context,
    fst (SwaggerView_get_context_data demo_context demo_resolve_namespace
           demo_reverse_any demo_build_absolute_uri 0 demo_kwargs
           (demo_world "api" "book")) = Ok context
    ∧ context !! "discovery_url" = Some (PStr "http://testserver/api/doc/resources").
Proof.
  destruct (SwaggerView_context_without_registry demo_context demo_resolve_namespace
              demo_reverse_any demo_build_absolute_uri 0 demo_kwargs
              (demo_world "api" "book") (demo_view "api" "book")
              "tastypie_swagger" "/api/doc/resources/")
    as (context & url & Hc & Hurl & -> & _).
  - reflexivity.
  - reflexivity.
  - reflexivity.
  - exists context. rewrite Hc. split; [done|]. exact Hurl.
Defined.

Lemma basePath_has_no_outer_slash_witness :
  ∃ basePath, starts_with "/" basePath = false ∧ ends_with "/" basePath = false.
Proof.
  edestruct (basePath_has_no_outer_slash demo_context demo_resolve_namespace
               demo_reverse demo_build_absolute_uri pyval Ok demo_build_apis
               demo_build_models 0 demo_kwargs (demo_world "myapp.urls.api" "book"))
    as (basePath & _ & Hs & He).
  - left.
    apply (listing_context_eq demo_context demo_resolve_namespace demo_reverse
             demo_build_absolute_uri 0 demo_kwargs (demo_world "myapp.urls.api" "book")
             (demo_view "myapp.urls.api" "book") demo_api demo_registry
             (with_cache 0 (demo_view "myapp.urls.api" "book") demo_api
                (demo_world "myapp.urls.api" "book"))
             "tastypie_swagger" "/api/doc/schema/");
      [reflexivity|vm_compute; reflexivity|reflexivity..].
  - exists basePath. auto.
Defined.

Lemma accessor_failure_fails_endpoints_witness :
  demo_declaration_with "api" "magazine" = Raise ValueError.
Proof.
  unfold demo_declaration_with.
  destruct (accessor_failure_fails_endpoints demo_context demo_resolve_namespace
              demo_reverse demo_build_absolute_uri pyval Ok demo_build_apis
              demo_build_models 0 (demo_world "api" "magazine")
              (demo_view "api" "magazine") ValueError (demo_world "api" "magazine"))
    as [_ Hd].
  - reflexivity.
  - vm_compute. reflexivity.
  - by rewrite Hd.
Defined.

Lemma endpoints_need_registry_attribute_witness :
  demo_declaration_with "myapp.urls.version" "book" = Raise AttributeError.
Proof.
  unfold demo_declaration_with.
  destruct (endpoints_need_registry_attribute demo_context demo_resolve_namespace
              demo_reverse demo_build_absolute_uri pyval Ok demo_build_apis
              demo_build_models 0 (demo_world "myapp.urls.version" "book")
              (demo_view "myapp.urls.version" "book") (PInt 3)
              (with_cache 0 (demo_view "myapp.urls.version" "book") (PInt 3)
                 (demo_world "myapp.urls.version" "book"))
              AttributeError)
    as (_ & _ & Hd & _).
  - reflexivity.
  - vm_compute. reflexivity.
  - reflexivity.
  - by rewrite Hd.
Defined.

Lemma SchemaView_known_resource_witness :
  ∃ context,
    fst (SchemaView_get_context_data demo_context demo_build_absolute_uri pyval Ok
           demo_build_apis demo_build_models 0 demo_kwargs
           (demo_world "myapp.urls.api" "book")) = Ok context
    ∧ context !! "basePath" = Some (PStr "http://testserver").
Proof.
  destruct (SchemaView_known_resource demo_context demo_build_absolute_uri pyval Ok
              demo_build_apis demo_build_models 0
              (demo_world "myapp.urls.api" "book") (demo_view "myapp.urls.api" "book")
              demo_api demo_registry
              (with_cache 0 (demo_view "myapp.urls.api" "book") demo_api
                 (demo_world "myapp.urls.api" "book"))
              "book" (PObj "BookResource" ∅) (PObj "BookResource" ∅)
              (PList [PDict (<["path" := PStr "/book/"]> ∅)])
              (PDict (<["Book" := PDict ∅]> ∅)))
    as (context & Hc & _ & _ & Hbase & _).
  - reflexivity.
  - vm_compute. reflexivity.
  - reflexivity.
  - reflexivity.
  - reflexivity.
  - reflexivity.
  - reflexivity.
  - reflexivity.
  - exists context. split; [|exact Hbase].
    change demo_kwargs with (kwargs (demo_view "myapp.urls.api" "book")). by rewrite Hc.
Defined.

Lemma demo_listing_context_eq :
  ResourcesView_get_context_data demo_context demo_resolve_namespace demo_reverse
    demo_build_absolute_uri 0 demo_kwargs (demo_world "myapp.urls.api" "book")
  = (Ok (dict_update
           (dict_update demo_base
              (<["apiVersion" := PStr "0.1"]> (<["swaggerVersion" := PStr "1.1"]> ∅)))
           (<["basePath" := PStr (strip "/" (demo_build_absolute_uri "/api/doc/schema/"))]>
              (<["apis" := PList (map api_entry
                                    (sorted (map fst (map_to_list demo_registry))))]> ∅))),
     with_cache 0 (demo_view "myapp.urls.api" "book") demo_api
       (demo_world "myapp.urls.api" "book")).
Proof.
  apply (listing_context_eq demo_context demo_resolve_namespace demo_reverse
           demo_build_absolute_uri 0 demo_kwargs (demo_world "myapp.urls.api" "book")
           (demo_view "myapp.urls.api" "book") demo_api demo_registry
           (with_cache 0 (demo_view "myapp.urls.api" "book") demo_api
              (demo_world "myapp.urls.api" "book"))
           "tastypie_swagger" "/api/doc/schema/");
    [reflexivity|vm_compute; reflexivity|reflexivity..].
Defined.

Lemma ResourcesView_keeps_other_entries_witness :
  ∃ context,
    fst (ResourcesView_get_context_data demo_context demo_resolve_namespace demo_reverse
           demo_build_absolute_uri 0 demo_kwargs (demo_world "myapp.urls.api" "book"))
    = Ok context
    ∧ context !! "title" = Some (PList [PLazy "Docs"]).
Proof.
  eexists. split; [by rewrite demo_listing_context_eq|].
  edestruct (ResourcesView_keeps_other_entries demo_context demo_resolve_namespace
               demo_reverse demo_build_absolute_uri 0 demo_kwargs
               (demo_world "myapp.urls.api" "book") (demo_view "myapp.urls.api" "book"))
    as [Hkeep _]; [reflexivity|exact demo_listing_context_eq|].
  rewrite (Hkeep "title").
  - reflexivity.
  - rewrite !not_elem_of_cons. split_and!; try done. apply not_elem_of_nil.
Defined.

Lemma ResourcesView_apis_any_key_order_witness :
  ∃ context,
    fst (ResourcesView_get_context_data demo_context demo_resolve_namespace demo_reverse
           demo_build_absolute_uri 0 demo_kwargs (demo_world "myapp.urls.api" "book"))
    = Ok context
    ∧ context !! "apis" = Some (PList (map api_entry (sorted ["book"; "Zed"; "author"]))).
Proof.
  eexists. split; [by rewrite demo_listing_context_eq|].
  eapply (ResourcesView_apis_any_key_order demo_context demo_resolve_namespace
            demo_reverse demo_build_absolute_uri 0 demo_kwargs
            (demo_world "myapp.urls.api" "book") demo_api demo_registry
            (with_cache 0 (demo_view "myapp.urls.api" "book") demo_api
               (demo_world "myapp.urls.api" "book"))).
  - vm_compute. reflexivity.
  - reflexivity.
  - exact demo_listing_context_eq.
  - repeat constructor; set_solver.
  - intros k. unfold demo_registry.
    rewrite !lookup_insert_is_Some, lookup_empty, is_Some_alt.
    rewrite !elem_of_cons, elem_of_nil. naive_solver.
Defined.

Lemma ResourcesView_get_again_witness :
  fst (ResourcesView_get demo_context demo_resolve_namespace demo_reverse
         demo_build_absolute_uri 0
         (with_modules ∅
            (with_cache 0 (demo_view "myapp.urls.api" "book") demo_api
               (demo_world "myapp.urls.api" "book"))))
  = Ok demo_listing_response.
Proof.
  rewrite (ResourcesView_get_again demo_context demo_resolve_namespace demo_reverse
             demo_build_absolute_uri 0 (demo_world "myapp.urls.api" "book")
             demo_listing_response
             (with_cache 0 (demo_view "myapp.urls.api" "book") demo_api
                (demo_world "myapp.urls.api" "book")) ∅).
  - reflexivity.
  - reflexivity.
  - vm_compute. reflexivity.
Defined.

Lemma ResourcesView_get_failure_kinds_witness :
  (∃ msg, ValueError = ImproperlyConfigured msg)
  ∨ ValueError = ValueError ∨ ValueError = AttributeError ∨ ValueError = TypeError
  ∨ demo_resolve_namespace "/api/doc/resources/" = Raise ValueError
  ∨ ∃ namespace, demo_resolve_namespace "/api/doc/resources/" = Ok namespace
                 ∧ demo_reverse (namespace ++ ":schema") = Raise ValueError.
Proof.
  apply (ResourcesView_get_failure_kinds demo_context demo_resolve_namespace demo_reverse
           demo_build_absolute_uri 0 (demo_world "api" "book") (demo_view "api" "book")
           ValueError (demo_world "api" "book")).
  - reflexivity.
  - vm_compute. reflexivity.
Defined.
